(** * NYT Spelling Bee solver: the filtering pipeline of [solver.py]

    A shallow embedding of the word validator, the plural and obscurity
    heuristics, the scorer and [solve_spellingbee], then of the report
    ([print_hints], [print_results]) and of [main], followed by the
    properties the specification states about them and by further
    properties read off the code.

    Conventions of the embedding.
    - A Python [str] is a [string]; a character of a [str] is a
      one-character [str], written [char_str c].  Text is ASCII, which
      is what the puzzle letters and the word list are made of.
    - A Python [int] is a [Z]; a Python [float] is a binary64 [float],
      with the operations of the hardware.
    - A Python [set] of strings is a [gset string].
    - The file system and the [wordfreq] import are the two things the
      module reads from its environment; they are the variables of the
      section [Solver]. *)

From Stdlib Require Import ZArith Ascii String List Sorted Permutation.
From Stdlib Require Import PrimFloat Uint63.
From stdpp Require Import gmap strings list.

#[local] Open Scope Z_scope.
#[local] Set Warnings "-inexact-float".

(** ** Python string primitives *)

Module Py.

(** The characters of a [str], in order. *)
Definition chars (s : string) : list ascii := list_ascii_of_string s.

(** The one-character [str] of a character. *)
Definition char_str (c : ascii) : string := String c EmptyString.

(** [len(s)]. *)
Definition len (s : string) : Z := Z.of_nat (String.length s).

Definition code (c : ascii) : N := N_of_ascii c.

(** [c.lower()] on ASCII: [A-Z] move to [a-z], the rest stays. *)
Definition ascii_lower (c : ascii) : ascii :=
  if ((65 <=? code c) && (code c <=? 90))%N
  then ascii_of_N (code c + 32) else c.

(** [s.lower()]. *)
Fixpoint lower (s : string) : string :=
  match s with
  | EmptyString => EmptyString
  | String c s' => String (ascii_lower c) (lower s')
  end.

(** [c.isspace()] on ASCII: tab, line feed, vertical tab, form feed,
    carriage return, the four separators 0x1c-0x1f, and the space. *)
Definition isspace (c : ascii) : bool :=
  (((9 <=? code c) && (code c <=? 13)) || ((28 <=? code c) && (code c <=? 32)))%N.

Fixpoint lstrip (s : string) : string :=
  match s with
  | EmptyString => EmptyString
  | String c s' => if isspace c then lstrip s' else s
  end.

Fixpoint rstrip (s : string) : string :=
  match s with
  | EmptyString => EmptyString
  | String c s' =>
      match rstrip s' with
      | EmptyString => if isspace c then EmptyString else char_str c
      | r => String c r
      end
  end.

(** [s.strip()]. *)
Definition strip (s : string) : string := rstrip (lstrip s).

(** [s.startswith(p)]. *)
Fixpoint startswith (p s : string) : bool :=
  match p, s with
  | EmptyString, _ => true
  | String _ _, EmptyString => false
  | String a p', String b s' => if Ascii.eqb a b then startswith p' s' else false
  end.

(** [s.endswith(suffix)]: some tail of [s] is [suffix]. *)
Fixpoint endswith (suffix s : string) : bool :=
  String.eqb s suffix
  || match s with
     | EmptyString => false
     | String _ s' => endswith suffix s'
     end.

(** [needle in hay] on strings: [needle] starts some tail of [hay]. *)
Fixpoint contains (needle hay : string) : bool :=
  startswith needle hay
  || match hay with
     | EmptyString => false
     | String _ hay' => contains needle hay'
     end.

(** [hay.count(needle)]: occurrences found scanning from the left,
    without overlap.  [skip] is the number of characters still covered
    by the occurrence found last. *)
Fixpoint count_from (needle : string) (skip : nat) (hay : string) : Z :=
  match hay with
  | EmptyString =>
      match skip, needle with
      | O, EmptyString => 1
      | _, _ => 0
      end
  | String _ hay' =>
      match skip with
      | S k => count_from needle k hay'
      | O =>
          if startswith needle hay
          then 1 + count_from needle (Nat.pred (String.length needle)) hay'
          else count_from needle O hay'
      end
  end.

Definition count (needle hay : string) : Z := count_from needle O hay.

(** [set(s)]: the set of the characters of [s]. *)
Definition set_of_str (s : string) : gset string :=
  list_to_set (char_str <$> chars s).

(** [float(n)] for a length or a count.  The conversion is exact below
    [2^53]; no string is that long. *)
Definition float_of_int (n : Z) : float := PrimFloat.of_uint63 (Uint63.of_Z n).

(** [n * x] with [n] an [int] and [x] a [float]. *)
Definition int_mul_float (n : Z) (x : float) : float :=
  PrimFloat.mul (float_of_int n) x.

(** [k >= x] with [k] an [int] and [x] a [float]. *)
Definition int_ge_float (k : Z) (x : float) : bool :=
  PrimFloat.leb x (float_of_int k).

(** [sorted(l)] and [l.sort()] compare with [<] and are stable: an
    element goes after every element that is not greater. *)
Section Sorting.
Context {A : Type} (lt : A -> A -> bool).

Fixpoint insert (x : A) (l : list A) : list A :=
  match l with
  | [] => [x]
  | y :: l' => if lt x y then x :: l else y :: insert x l'
  end.

Definition sorted (l : list A) : list A :=
  fold_left (fun acc x => insert x acc) l [].
End Sorting.

End Py.

(** ** The module's data *)

Module WordResult.
Record t : Type := mk {
  word : string;
  score : Z;
  is_pangram : bool;
  length : Z;
  zipf_score : float
}.
End WordResult.

Definition newline : ascii := ascii_of_N 10.

(** [[a-z]]. *)
Definition is_az (c : ascii) : bool :=
  ((97 <=? Py.code c) && (Py.code c <=? 122))%N.

(** [[qxz]]. *)
Definition is_qxz (c : ascii) : bool :=
  (Py.code c =? 113)%N || (Py.code c =? 120)%N || (Py.code c =? 122)%N.

(** [.]: any character but a line feed. *)
Definition is_dot (c : ascii) : bool := negb (Ascii.eqb c newline).

(** A position where [$] holds: the end of the string, or just before a
    line feed that ends the string. *)
Definition at_dollar (rest : string) : bool :=
  match rest with
  | EmptyString => true
  | String c EmptyString => Ascii.eqb c newline
  | _ => false
  end.

(** [_WORD_RE.match(w)] for [^[a-z]+$]. *)
Fixpoint az_then_dollar (w : string) : bool :=
  match w with
  | EmptyString => false
  | String c rest => is_az c && (at_dollar rest || az_then_dollar rest)
  end.

Definition _WORD_RE_match (w : string) : bool := az_then_dollar w.

(** [re.match] of [^.{15,}$]: [n] more [.] are owed, then any number of
    them, then [$]. *)
Fixpoint dots_then_dollar (n : nat) (w : string) : bool :=
  match n with
  | O => at_dollar w
         || match w with
            | String c rest => is_dot c && dots_then_dollar O rest
            | EmptyString => false
            end
  | S k => match w with
           | String c rest => is_dot c && dots_then_dollar k rest
           | EmptyString => false
           end
  end.

(** [re.match] of [.*[qxz]{2,}.*]: after some [.]s, two characters of
    [[qxz]] in a row; what follows is free. *)
Fixpoint dots_then_rare_pair (w : string) : bool :=
  match w with
  | String a (String b _ as rest) =>
      (is_qxz a && is_qxz b) || (is_dot a && dots_then_rare_pair rest)
  | _ => false
  end.

Definition EXCLUDE_PATTERNS : list (string -> bool) :=
  [ dots_then_dollar 15;      (* extremely long words *)
    dots_then_rare_pair ].    (* multiple rare letters *)

(** ** The heuristics *)

Definition non_plural_endings : list string :=
  ["ous"; "ness"; "less"; "ious"; "us"]%string.

Definition _is_likely_plural (word : string) : bool :=
  if negb (Py.endswith "s" word) || (Py.len word <=? 4) then false
  else if Py.endswith "ss" word then false
  else if existsb (fun ending => Py.endswith ending word) non_plural_endings then false
  else true.

Definition _is_obscure_word (word : string) : bool :=
  if existsb (fun pattern => pattern word) EXCLUDE_PATTERNS then true
  else if 6 <=? Py.len word then
    existsb (fun char =>
               Py.int_ge_float (Py.count char word)
                               (Py.int_mul_float (Py.len word) 0.6%float))
            (elements (Py.set_of_str word))
  else false.

Definition _is_valid_word (word : string) (letters_set : gset string)
    (center : string) (min_len : Z)
    (filter_plurals filter_obscure : bool) : bool :=
  if Py.len word <? min_len then false
  else if negb (Py.contains center word) then false
  else if negb (bool_decide (Py.set_of_str word ⊆ letters_set)) then false
  else if filter_plurals && _is_likely_plural word then false
  else if filter_obscure && _is_obscure_word word then false
  else true.

Definition _is_pangram (word : string) (letters_set : gset string) : bool :=
  bool_decide (letters_set ⊆ Py.set_of_str word).

(** The default of [pangram_bonus]. *)
Definition pangram_bonus_default : Z := 7.

Definition _score_word (word : string) (letters_set : gset string)
    (pangram_bonus : Z) : Z * bool :=
  let is_pg := _is_pangram word letters_set in
  let base := if Py.len word =? 4 then 1 else Py.len word in
  (base + (if is_pg then pangram_bonus else 0), is_pg).

(** ** The pipeline *)

(** What [solve_spellingbee] raises.  The two [ValueError]s carry what
    their messages print. *)
Inductive config_fault : Type :=
| WrongLetterCount (got : nat)
| CenterNotAmong (center : string) (uniq_letters : list string).

Inductive exn : Type :=
| ValueError (why : config_fault)
| OSError (path : string).

(** What a call leaves behind: the list it returns or the exception it
    raises, and the words it passed to [_get_zipf], oldest first. *)
Record outcome : Type := {
  returned : exn + list WordResult.t;
  lookups : list string
}.

(** The key of [results.sort], and [<] on such tuples: the first
    components decide unless they are equal. *)
Definition sort_key (r : WordResult.t) : Z * string :=
  (- WordResult.score r, WordResult.word r).

Definition key_lt (k1 k2 : Z * string) : bool :=
  if k1.1 =? k2.1 then String.ltb k1.2 k2.2 else k1.1 <? k2.1.

Definition result_lt (r1 r2 : WordResult.t) : bool :=
  key_lt (sort_key r1) (sort_key r2).

Section Solver.

(** The lines of the file at a path, each with its line end; [None]
    when the file cannot be opened. *)
Variable open_lines : string -> option (list string).

(** [wordfreq.zipf_frequency], or [None] when the import failed. *)
Variable zipf_frequency : option (string -> string -> float).

(** [lru_cache] only saves calls of a function that gives the same
    answer for the same word, so the value is that of the function. *)
Definition _get_zipf (word : string) : float :=
  match zipf_frequency with
  | None => 0%float
  | Some f => f word "en"
  end.

Definition _load_words (path : string) : exn + list string :=
  match open_lines path with
  | None => inl (OSError path)
  | Some lines =>
      inr (filter (fun w => _WORD_RE_match w = true)
                  ((fun line => Py.lower (Py.strip line)) <$> lines))
  end.

Section Loop.
Variables (uniq_letters_set : gset string) (center : string)
          (min_len pangram_bonus : Z)
          (min_zipf : option float) (max_len : option Z)
          (filter_plurals filter_obscure use_aggressive_filtering : bool).

Definition make_result (word : string) (zipf_score : float) : WordResult.t :=
  let '(score, is_pg) := _score_word word uniq_letters_set pangram_bonus in
  WordResult.mk word score is_pg (Py.len word) zipf_score.

(** One turn of the [for] loop: the words looked up and the results
    appended in that turn. *)
Definition loop_body (word : string) : list string * list WordResult.t :=
  if negb (_is_valid_word word uniq_letters_set center min_len
                          filter_plurals filter_obscure)
  then ([], [])
  else if match max_len with
          | Some m => m <? Py.len word
          | None => false
          end
  then ([], [])
  else
    match min_zipf, zipf_frequency with
    | Some threshold, Some _ =>
        let zipf_score := _get_zipf word in
        ([word],
         if PrimFloat.ltb zipf_score threshold then []
         else if use_aggressive_filtering
                 && (8 <=? Py.len word)
                 && PrimFloat.ltb zipf_score (PrimFloat.add threshold 0.3%float)
         then []
         else if use_aggressive_filtering
                 && (9 <=? Py.len word)
                 && PrimFloat.ltb zipf_score (PrimFloat.add threshold 0.5%float)
         then []
         else [make_result word zipf_score])
    | _, _ => ([], [make_result word 0%float])
    end.

Fixpoint loop (words : list string) : list string * list WordResult.t :=
  match words with
  | [] => ([], [])
  | word :: rest =>
      let '(looked, kept) := loop_body word in
      let '(looked', kept') := loop rest in
      (looked ++ looked', kept ++ kept')
  end.
End Loop.

Definition raise (e : exn) : outcome := {| returned := inl e; lookups := [] |}.

Definition solve_spellingbee (letters : list string) (center : string)
    (wordlist_path : string) (min_len pangram_bonus : Z)
    (min_zipf : option float) (max_len : option Z)
    (filter_plurals filter_obscure use_aggressive_filtering : bool) : outcome :=
  let letters := Py.lower <$> letters in
  let center := Py.lower center in
  let uniq_letters :=
    Py.sorted String.ltb (elements (list_to_set letters : gset string)) in
  let uniq_letters_set : gset string := list_to_set uniq_letters in
  if negb (length uniq_letters =? 7)%nat then
    raise (ValueError (WrongLetterCount (length uniq_letters)))
  else if negb (bool_decide (center ∈ uniq_letters)) then
    raise (ValueError (CenterNotAmong center uniq_letters))
  else
    match _load_words wordlist_path with
    | inl e => raise e
    | inr words =>
        let '(looked, results) :=
          loop uniq_letters_set center min_len pangram_bonus min_zipf max_len
               filter_plurals filter_obscure use_aggressive_filtering words in
        {| returned := inr (Py.sorted result_lt results); lookups := looked |}
    end.

End Solver.

(** ** Presentation and the entry point *)

(** More of Python: [upper], slices, [Counter]. *)
Module Builtin.

Definition ascii_upper (c : ascii) : ascii :=
  if ((97 <=? Py.code c) && (Py.code c <=? 122))%N
  then ascii_of_N (Py.code c - 32) else c.

(** [s.upper()]. *)
Fixpoint upper (s : string) : string :=
  match s with
  | EmptyString => EmptyString
  | String c s' => String (ascii_upper c) (upper s')
  end.

(** [s[0]]; [None] stands for the [IndexError] of an empty string. *)
Definition first (s : string) : option string :=
  match s with
  | EmptyString => None
  | String c _ => Some (Py.char_str c)
  end.

(** [s[:n]] for a string and [n >= 0]. *)
Fixpoint str_take (n : nat) (s : string) : string :=
  match n, s with
  | S k, String c s' => String c (str_take k s')
  | _, _ => EmptyString
  end.

(** [l[:n]]: a negative [n] counts from the end. *)
Definition slice_to {A : Type} (n : Z) (l : list A) : list A :=
  if 0 <=? n then take (Z.to_nat n) l
  else take (Z.to_nat (Z.of_nat (length l) + n)) l.

(** [Counter(xs)]: the keys in the order they are first met, each with
    the number of times it is met. *)
Fixpoint bump {A : Type} `{EqDecision A} (k : A) (c : list (A * nat)) : list (A * nat) :=
  match c with
  | [] => [(k, 1%nat)]
  | (k', n) :: c' => if decide (k = k') then (k', S n) :: c' else (k', n) :: bump k c'
  end.

Definition Counter {A : Type} `{EqDecision A} (xs : list A) : list (A * nat) :=
  fold_left (fun c k => bump k c) xs [].

(** [c.most_common(n)]: by falling count, ties in the order of the
    counter, the first [n]. *)
Definition most_common {A : Type} (n : nat) (c : list (A * nat)) : list (A * nat) :=
  take n (Py.sorted (fun a b => (b.2 <? a.2)%nat) c).

(** [<] on the pairs of [items()]. *)
Definition str_item_lt (a b : string * nat) : bool :=
  if String.eqb a.1 b.1 then (a.2 <? b.2)%nat else String.ltb a.1 b.1.

Definition int_item_lt (a b : Z * nat) : bool :=
  if a.1 =? b.1 then (a.2 <? b.2)%nat else a.1 <? b.1.

End Builtin.

(** What is printed, one constructor for each [print] or block of fixed
    text, carrying the values the text is made from. *)
Inductive line : Type :=
| Rule
| Blank
| Banner
| ShowPuzzle (letters center : string)
| LettersError (distinct : nat) (letters : string)
| CenterError (center letters : string)
| WordlistError (path : string)
| FrequencyNotice (available : bool)
| Tips (available : bool) (min_zipf : float)
| HintsHeading
| ByFirstLetter (counts : list (string * nat))
| StartsHeading
| Start (start : string) (count : nat)
| SummaryHeading
| WordsFound (n : nat)
| TotalPoints (points : Z)
| Pangrams (n : nat)
| ByLength (counts : list (Z * nat))
| AverageZipf (average : float)
| TopHeading (n : Z)
| WordRow (word : string) (length score : Z) (pangram : bool) (zipf : option float)
| PangramsHeading
| PangramRow (word : string) (score : Z) (zipf : option float).

(** What a printing function leaves behind: the lines printed, and
    whether it stopped on the [IndexError] of an empty word. *)
Record printed : Type := {
  lines : list line;
  index_error : bool
}.

(** The first characters of the words, [None] when a word is empty. *)
Fixpoint first_letters (results : list WordResult.t) : option (list string) :=
  match results with
  | [] => Some []
  | r :: rest =>
      match Builtin.first (WordResult.word r) with
      | None => None
      | Some c => option_map (cons (Builtin.upper c)) (first_letters rest)
      end
  end.

Definition print_hints (results : list WordResult.t) : printed :=
  match first_letters results with
  | None => {| lines := []; index_error := true |}
  | Some firsts =>
      let by_first_letter := Builtin.Counter firsts in
      let two_letter_starts :=
        Builtin.Counter
          (map (fun r => Builtin.upper (Builtin.str_take 2 (WordResult.word r))) results) in
      {| lines :=
           [HintsHeading;
            ByFirstLetter (Py.sorted Builtin.str_item_lt by_first_letter);
            StartsHeading]
           ++ map (fun item => Start item.1 item.2)
                  (Builtin.most_common 10 two_letter_starts)
           ++ [Blank];
         index_error := false |}
  end.

(** [f" zipf=..."] is shown for a positive frequency only. *)
Definition zipf_info (r : WordResult.t) : option float :=
  if PrimFloat.ltb 0%float (WordResult.zipf_score r)
  then Some (WordResult.zipf_score r) else None.

Section Printing.

(** [sum] over floats; how it rounds is left to the interpreter. *)
Variable float_sum : list float -> float.

(** The summary block of [print_results]. *)
Definition summary_lines (results : list WordResult.t) : list line :=
  let total_points := fold_right Z.add 0 (map WordResult.score results) in
  let n_pangrams := length (List.filter WordResult.is_pangram results) in
  let by_len := Builtin.Counter (map WordResult.length results) in
  [Rule; SummaryHeading; WordsFound (length results); TotalPoints total_points;
   Pangrams n_pangrams; ByLength (Py.sorted Builtin.int_item_lt by_len)]
  ++ (match results with
      | r0 :: _ =>
          if PrimFloat.ltb 0%float (WordResult.zipf_score r0)
          then [AverageZipf
                  (PrimFloat.div (float_sum (map WordResult.zipf_score results))
                                 (Py.float_of_int (Z.of_nat (length results))))]
          else []
      | [] => []
      end)
  ++ [Blank].

(** The block of the top words. *)
Definition top_lines (results : list WordResult.t) (show_top_n : Z) : list line :=
  TopHeading (Z.min show_top_n (Z.of_nat (length results)))
  :: map (fun r => WordRow (Builtin.upper (WordResult.word r)) (WordResult.length r)
                           (WordResult.score r) (WordResult.is_pangram r) (zipf_info r))
         (Builtin.slice_to show_top_n results)
  ++ [Blank].

(** The block of the pangrams, printed when there is one. *)
Definition pangram_lines (results : list WordResult.t) : list line :=
  match List.filter WordResult.is_pangram results with
  | [] => []
  | pangrams =>
      PangramsHeading
      :: map (fun r => PangramRow (Builtin.upper (WordResult.word r))
                                  (WordResult.score r) (zipf_info r))
             pangrams
      ++ [Blank]
  end.

Definition print_results (results : list WordResult.t) (show_top_n : Z)
    (show_hints : bool) : printed :=
  let hints := if show_hints then print_hints results
               else {| lines := []; index_error := false |} in
  if index_error hints
  then {| lines := summary_lines results ++ lines hints; index_error := true |}
  else {| lines := summary_lines results ++ lines hints
                   ++ top_lines results show_top_n ++ pangram_lines results;
          index_error := false |}.

(** The constants at the top of the module, the file system and the
    [wordfreq] import are what [main] runs on. *)
Variables (LETTERS CENTER : string) (MIN_ZIPF : float)
          (SHOW_TOP_N : Z) (SHOW_HINTS : bool) (WORDLIST : string).
Variable path_exists : string -> bool.
Variable open_lines : string -> option (list string).
Variable zipf_frequency : option (string -> string -> float).

Definition WORDFREQ_AVAILABLE : bool :=
  match zipf_frequency with
  | Some _ => true
  | None => false
  end.

(** How [main] ends. *)
Inductive ending : Type :=
| Finished
| SystemExit (code : Z)
| Escaped (e : exn)
| EscapedIndexError.

Record main_run : Type := {
  shown : list line;
  ended : ending
}.

Definition main : main_run :=
  let head := [Rule; Banner; Rule; ShowPuzzle LETTERS CENTER; Blank] in
  if negb (size (Py.set_of_str LETTERS) =? 7)%nat then
    {| shown := head ++ [LettersError (size (Py.set_of_str LETTERS)) LETTERS];
       ended := SystemExit 1 |}
  else if negb (Py.contains CENTER LETTERS) then
    {| shown := head ++ [CenterError CENTER LETTERS]; ended := SystemExit 1 |}
  else if negb (path_exists WORDLIST) then
    {| shown := head ++ [WordlistError WORDLIST]; ended := SystemExit 1 |}
  else
    let use_zipf := if WORDFREQ_AVAILABLE then Some MIN_ZIPF else None in
    let head := head ++ [FrequencyNotice WORDFREQ_AVAILABLE] in
    match returned (solve_spellingbee open_lines zipf_frequency
                      (Py.char_str <$> Py.chars LETTERS) CENTER WORDLIST 4 7
                      use_zipf (Some 10) true true WORDFREQ_AVAILABLE) with
    | inl e => {| shown := head; ended := Escaped e |}
    | inr results =>
        let report := print_results results SHOW_TOP_N SHOW_HINTS in
        if index_error report
        then {| shown := head ++ lines report; ended := EscapedIndexError |}
        else {| shown := head ++ lines report
                         ++ [Rule; Tips WORDFREQ_AVAILABLE MIN_ZIPF; Rule];
                ended := Finished |}
    end.

End Printing.

(** ** A small word list and a frequency table, for examples *)

Definition demo_lines : list string :=
  [ "rental
"; "  Learnt
"; "antlers
"; "lean
"; "ten
"; "rent-a
"; "entrants
"; "eternal
"; "nonsense
"; "tarts
"; "antennae
"; "reentrant
"; "lantern" ]%string.

Definition demo_fs (path : string) : option (list string) :=
  if String.eqb path "wordlist.txt" then Some demo_lines else None.

Definition demo_zipf (word lang : string) : float :=
  if String.eqb word "rental" then 4.2%float
  else if String.eqb word "learnt" then 3.1%float
  else if String.eqb word "lantern" then 3.7%float
  else if String.eqb word "eternal" then 4.4%float
  else if String.eqb word "antennae" then 3.8%float
  else if String.eqb word "reentrant" then 4.0%float
  else 3.9%float.

Definition demo_letters : list string := Py.char_str <$> Py.chars "AELNRST".

(** ** Words used to state the properties *)

(** The distinct letters of the puzzle, in lower case. *)
Definition letter_set (letters : list string) : gset string :=
  list_to_set (Py.lower <$> letters).

(** The list a call returned, empty when it raised. *)
Definition results_of (out : outcome) : list WordResult.t :=
  match returned out with
  | inr results => results
  | inl _ => []
  end.

(** The words a word list yields, none when it cannot be opened. *)
Definition loaded_words (open_lines : string -> option (list string))
    (path : string) : list string :=
  match _load_words open_lines path with
  | inr words => words
  | inl _ => []
  end.

Definition no_result : WordResult.t := WordResult.mk EmptyString 0 false 0 0%float.

(** The demonstration puzzle: words of up to 10 letters, both heuristics
    on; [aggressive] is [use_aggressive_filtering]. *)
Definition demo_run (zipf : option (string -> string -> float))
    (min_zipf : option float) (aggressive : bool) : outcome :=
  solve_spellingbee demo_fs zipf demo_letters "N" "wordlist.txt" 4 7
                    min_zipf (Some 10) true true aggressive.

(** [w] ends in [e]. *)
Definition ends_with (w e : string) : Prop := exists p, w = p +:+ e.

(** How often the character [c] occurs in [w]. *)
Definition occurrences (c : ascii) (w : string) : Z :=
  Z.of_nat (count_occ ascii_dec (Py.chars w) c).

Definition rare_letters : list ascii := Py.chars "qxz".

(** The last character of a string. *)
Fixpoint last_char (s : string) : option ascii :=
  match s with
  | EmptyString => None
  | String c EmptyString => Some c
  | String _ s' => last_char s'
  end.

(** A dictionary entry: a token of lower-case letters, at least one. *)
Definition dictionary_entry (w : string) : Prop :=
  w <> EmptyString /\ Forall (fun c => is_az c = true) (Py.chars w).

(** Two characters of [rare_letters] next to each other in [w]. *)
Definition has_rare_run (w : string) : Prop :=
  exists p a b q, w = p +:+ String a (String b q)
                  /\ In a rare_letters /\ In b rare_letters.

(** [len(word) * 0.6] rounds, and the comparison with a count is exact:
    for the lengths that reach this test the outcome is that of 3/5. *)
Definition sixty_percent_table : bool :=
  forallb (fun n =>
    forallb (fun k =>
      Bool.eqb (Py.int_ge_float (Z.of_nat k) (Py.int_mul_float (Z.of_nat n) 0.6%float))
               (3 * Z.of_nat n <=? 5 * Z.of_nat k))
      (seq 0 (S n)))
    (seq 6 9).

(** The sum of the counts of a counter. *)
Definition count_total {A : Type} (c : list (A * nat)) : nat :=
  list_sum (map snd c).

(** How often the key [k] has been counted in [c]. *)
Fixpoint tally {A : Type} `{EqDecision A} (c : list (A * nat)) (k : A) : nat :=
  match c with
  | [] => 0
  | (k', n) :: c' => (if decide (k = k') then n else 0) + tally c' k
  end.

Definition is_word_row (l : line) : bool :=
  match l with
  | WordRow _ _ _ _ _ => true
  | _ => false
  end.

Definition is_pangram_row (l : line) : bool :=
  match l with
  | PangramRow _ _ _ => true
  | _ => false
  end.

(** A line that shows a frequency. *)
Definition shows_frequency (l : line) : bool :=
  match l with
  | AverageZipf _ => true
  | WordRow _ _ _ _ (Some _) => true
  | PangramRow _ _ (Some _) => true
  | _ => false
  end.

(** The word of a result starts with the letter [k], whatever the case. *)
Definition starts_with_letter (k : string) (r : WordResult.t) : bool :=
  match Builtin.first (WordResult.word r) with
  | Some c => String.eqb (Builtin.upper c) k
  | None => false
  end.

(** The word of a result starts with the two letters [s], whatever the
    case (with the whole of [s] when it is shorter). *)
Definition starts_with_pair (s : string) (r : WordResult.t) : bool :=
  String.eqb (Builtin.upper (Builtin.str_take 2 (WordResult.word r))) s.

(** The lines of each block of the report. *)
Definition is_hint_line (l : line) : bool :=
  match l with
  | HintsHeading | ByFirstLetter _ | StartsHeading | Start _ _ | Blank => true
  | _ => false
  end.

Definition is_summary_line (l : line) : bool :=
  match l with
  | Rule | SummaryHeading | WordsFound _ | TotalPoints _ | Pangrams _
  | ByLength _ | AverageZipf _ | Blank => true
  | _ => false
  end.

Definition is_pangram_line (l : line) : bool :=
  match l with
  | PangramsHeading | PangramRow _ _ _ | Blank => true
  | _ => false
  end.

(** * Properties *)

(** ** Worked examples *)

Example score_rental :
  _score_word "rental" (letter_set demo_letters) 7 = (6, false).
Proof. vm_compute. reflexivity. Qed.

Example score_four_five_pangram :
  (_score_word "lean" (letter_set demo_letters) 7,
   _score_word "learn" (letter_set demo_letters) 7,
   _score_word "antlers" (letter_set demo_letters) 7)
  = ((1, false), (5, false), (14, true)).
Proof. vm_compute. reflexivity. Qed.

Example plural_arts_rentals :
  (_is_likely_plural "arts", _is_likely_plural "rentals",
   _is_likely_plural "tenantless") = (false, true, false).
Proof. vm_compute. reflexivity. Qed.

Example obscure_examples :
  (_is_obscure_word "rental", _is_obscure_word "eeeene",
   _is_obscure_word "pizzazz", _is_obscure_word "entertainments")
  = (false, true, true, false).
Proof. vm_compute. reflexivity. Qed.

(** The patterns stop at a line end: text holding a line feed is not a
    word, and the rare pair after the line feed goes unseen. *)
Example obscure_second_line :
  _is_obscure_word (String "a" (String newline "qq")) = false.
Proof. vm_compute. reflexivity. Qed.

Example load_demo_words :
  _load_words demo_fs "wordlist.txt"
  = inr ["rental"; "learnt"; "antlers"; "lean"; "ten"; "entrants"; "eternal";
         "nonsense"; "tarts"; "antennae"; "reentrant"; "lantern"]%string.
Proof. vm_compute. reflexivity. Qed.

Example solve_demo_words :
  map WordResult.word (results_of (demo_run (Some demo_zipf) (Some 3.6%float) true))
  = ["eternal"; "lantern"; "rental"; "lean"]%string
  /\ lookups (demo_run (Some demo_zipf) (Some 3.6%float) true)
     = ["rental"; "learnt"; "lean"; "eternal"; "antennae"; "reentrant"; "lantern"]%string.
Proof. vm_compute. split; reflexivity. Qed.

Example solve_demo_plain_words :
  map WordResult.word (results_of (demo_run (Some demo_zipf) (Some 3.6%float) false))
  = ["reentrant"; "antennae"; "eternal"; "lantern"; "rental"; "lean"]%string.
Proof. vm_compute. reflexivity. Qed.

Example solve_wrong_center :
  solve_spellingbee demo_fs None demo_letters "X" "missing.txt" 4 7
                    None (Some 10) true true false
  = raise (ValueError (CenterNotAmong "x" ["a"; "e"; "l"; "n"; "r"; "s"; "t"]%string)).
Proof. vm_compute. reflexivity. Qed.

Example solve_six_letters :
  solve_spellingbee demo_fs None ["a"; "e"; "l"; "n"; "r"; "s"; "S"]%string "n"
                    "wordlist.txt" 4 7 None (Some 10) true true false
  = raise (ValueError (WrongLetterCount 6)).
Proof. vm_compute. reflexivity. Qed.

Example solve_missing_wordlist :
  solve_spellingbee demo_fs None demo_letters "N" "missing.txt" 4 7
                    None (Some 10) true true false
  = raise (OSError "missing.txt").
Proof. vm_compute. reflexivity. Qed.

(** ** Strings *)

Lemma append_nil_l t : EmptyString +:+ t = t.
Proof. reflexivity. Qed.

Lemma append_cons c s t : String c s +:+ t = String c (s +:+ t).
Proof. reflexivity. Qed.

(** [simpl] leaves [+:+] alone; these two equations compute it. *)
Ltac sapp := rewrite ?append_nil_l, ?append_cons in *.

Lemma len_nonneg s : 0 <= Py.len s.
Proof. unfold Py.len. lia. Qed.

Lemma len_String c s : Py.len (String c s) = 1 + Py.len s.
Proof. unfold Py.len. simpl String.length. lia. Qed.

Lemma len_app s t : Py.len (s +:+ t) = Py.len s + Py.len t.
Proof.
  induction s as [|c s IH]; sapp.
  - unfold Py.len at 2. simpl. lia.
  - rewrite !len_String, IH. lia.
Qed.

Lemma append_empty_r s : s +:+ EmptyString = s.
Proof. induction s as [|c s IH]; sapp; [done | by rewrite IH]. Qed.

Lemma append_assoc s t u : (s +:+ t) +:+ u = s +:+ t +:+ u.
Proof. induction s as [|c s IH]; sapp; [done | by rewrite IH]. Qed.

Lemma chars_app s t : Py.chars (s +:+ t) = Py.chars s ++ Py.chars t.
Proof. induction s as [|c s IH]; sapp; simpl; [done | by rewrite IH]. Qed.

Lemma startswith_spec p s :
  Py.startswith p s = true <-> exists q, s = p +:+ q.
Proof.
  revert s. induction p as [|a p IH]; intros s; simpl.
  - split; [eauto | done].
  - destruct s as [|b s].
    + split; [done | intros [q Hq]; discriminate].
    + destruct (Ascii.eqb_spec a b) as [->|Hne].
      * rewrite IH. split; intros [q Hq]; exists q; sapp; congruence.
      * split; [done | intros [q Hq]; sapp; congruence].
Qed.

Lemma endswith_spec e s : Py.endswith e s = true <-> ends_with s e.
Proof.
  unfold ends_with. induction s as [|c s IH]; cbn [Py.endswith].
  - rewrite orb_false_r. split.
    + intros H%String.eqb_eq. subst. by exists EmptyString.
    + intros [p Hp]. destruct p, e; sapp; try discriminate. done.
  - rewrite orb_true_iff, IH. split.
    + intros [H%String.eqb_eq | [p Hp]].
      * subst. by exists EmptyString.
      * exists (String c p). sapp. by rewrite Hp.
    + intros [p Hp]. destruct p as [|d p]; sapp.
      * left. apply String.eqb_eq. done.
      * right. exists p. congruence.
Qed.

Lemma contains_spec needle hay :
  Py.contains needle hay = true <-> exists p q, hay = p +:+ needle +:+ q.
Proof.
  induction hay as [|c hay IH]; simpl.
  - rewrite orb_false_r, startswith_spec. split.
    + intros [q Hq]. by exists EmptyString, q.
    + intros (p & q & H). destruct p; sapp; [eauto | discriminate].
  - rewrite orb_true_iff, IH, startswith_spec. split.
    + intros [[q Hq] | (p & q & H)].
      * by exists EmptyString, q.
      * exists (String c p), q. sapp. by rewrite H.
    + intros (p & q & H). destruct p as [|d p]; sapp.
      * left. eauto.
      * right. exists p, q. congruence.
Qed.

Lemma In_chars_split c w :
  In c (Py.chars w) <-> exists p q, w = p +:+ String c q.
Proof.
  induction w as [|d w IH]; simpl.
  - split; [done | intros (p & q & H); destruct p; discriminate].
  - rewrite IH. split.
    + intros [-> | (p & q & ->)].
      * by exists EmptyString, w.
      * by exists (String d p), q.
    + intros (p & q & H). destruct p as [|e p]; sapp.
      * left. congruence.
      * right. exists p, q. congruence.
Qed.

(** A one-character [str] is [in] a word when its character occurs. *)
Lemma contains_char c w :
  Py.contains (Py.char_str c) w = true <-> In c (Py.chars w).
Proof. by rewrite contains_spec, In_chars_split. Qed.

Lemma elem_of_set_of_str x w :
  x ∈ Py.set_of_str w <-> exists c, x = Py.char_str c /\ In c (Py.chars w).
Proof.
  unfold Py.set_of_str. rewrite elem_of_list_to_set, list_elem_of_fmap.
  by setoid_rewrite list_elem_of_In.
Qed.

Lemma char_str_elem_of c w :
  Py.char_str c ∈ Py.set_of_str w <-> In c (Py.chars w).
Proof.
  rewrite elem_of_set_of_str. split.
  - intros (d & Hd & Hin). by injection Hd as ->.
  - eauto.
Qed.

Lemma count_char c w : Py.count (Py.char_str c) w = occurrences c w.
Proof.
  unfold Py.count, occurrences.
  induction w as [|d w IH]; [done |].
  cbn [Py.count_from Py.startswith Py.char_str String.length Nat.pred Py.chars
       list_ascii_of_string count_occ].
  fold (Py.chars w). fold (Py.char_str c).
  destruct (Ascii.eqb_spec c d) as [->|Hne].
  - destruct (ascii_dec d d); [| done]. rewrite IH. lia.
  - destruct (ascii_dec d c); [congruence | done].
Qed.

Lemma occurrences_bounds c w : 0 <= occurrences c w <= Py.len w.
Proof.
  unfold occurrences, Py.len. split; [lia |].
  apply inj_le. induction w as [|d w IH]; simpl; [lia |].
  destruct (ascii_dec d c); fold (Py.chars w); lia.
Qed.

(** ** The word list *)

Lemma last_char_cons c d s : last_char (String c (String d s)) = last_char (String d s).
Proof. reflexivity. Qed.

Lemma rstrip_last s c : last_char (Py.rstrip s) = Some c -> Py.isspace c = false.
Proof.
  induction s as [|a s IH]; [done |].
  cbn [Py.rstrip]. destruct (Py.rstrip s) as [|d r].
  - destruct (Py.isspace a) eqn:Ha; [done |]. by intros [= <-].
  - rewrite last_char_cons. exact IH.
Qed.

Lemma ascii_lower_space c : Py.isspace (Py.ascii_lower c) = true -> Py.isspace c = true.
Proof. destruct c as [[] [] [] [] [] [] [] []]; vm_compute; congruence. Qed.

Lemma lower_last s c :
  last_char (Py.lower s) = Some c ->
  exists c', last_char s = Some c' /\ c = Py.ascii_lower c'.
Proof.
  induction s as [|a s IH]; [done |].
  destruct s as [|b s].
  - intros [= <-]. eauto.
  - cbn [Py.lower] in *. rewrite !last_char_cons. exact IH.
Qed.

Lemma is_az_not_newline c : is_az c = true -> c <> newline.
Proof. intros Haz ->. vm_compute in Haz. discriminate. Qed.

Lemma az_then_dollar_entry w :
  az_then_dollar w = true ->
  (forall c, last_char w = Some c -> c <> newline) ->
  dictionary_entry w.
Proof.
  unfold dictionary_entry. intros Hmatch Hlast. split; [by destruct w |].
  induction w as [|a w IH]; [constructor |].
  cbn [az_then_dollar] in Hmatch.
  apply andb_true_iff in Hmatch as [Ha Hrest].
  cbn [Py.chars list_ascii_of_string]. constructor; [done |].
  destruct w as [|b w]; [constructor |].
  apply IH; [| intros c Hc; apply Hlast; by rewrite last_char_cons].
  apply orb_true_iff in Hrest as [Hdollar | Hrest]; [| done].
  destruct w; [| done]. cbn [at_dollar] in Hdollar.
  apply Ascii.eqb_eq in Hdollar as ->. by destruct (Hlast newline).
Qed.

(** Every word that [_load_words] yields is a dictionary entry. *)
Lemma load_words_entries open_lines path words :
  _load_words open_lines path = inr words ->
  forall w, In w words -> dictionary_entry w.
Proof.
  unfold _load_words. destruct (open_lines path) as [lines |]; [| done].
  intros [= <-] w Hw.
  apply list_elem_of_In, list_elem_of_filter in Hw as [Hmatch Hw].
  apply list_elem_of_fmap in Hw as (line & -> & _).
  apply az_then_dollar_entry; [exact Hmatch |].
  intros c (c' & Hc' & ->)%lower_last Hnl.
  apply rstrip_last in Hc'.
  assert (Py.isspace c' = true) by (apply ascii_lower_space; by rewrite Hnl).
  congruence.
Qed.

Lemma dictionary_entry_line w : dictionary_entry w -> ~ In newline (Py.chars w).
Proof.
  intros [_ Haz] Hnl. rewrite Forall_forall in Haz.
  by apply (is_az_not_newline newline); [apply Haz, list_elem_of_In |].
Qed.

(** ** The plural heuristic *)

Lemma endswith_false e s : Py.endswith e s = false <-> ~ ends_with s e.
Proof. rewrite <- endswith_spec. destruct (Py.endswith e s); split; congruence. Qed.

(** C6: a word is flagged as a likely plural exactly when it ends in "s",
    is longer than four characters, does not end in "ss", and ends in
    none of "ous", "ness", "less", "ious", "us". *)
Theorem is_likely_plural_iff (word : string) :
  _is_likely_plural word = true <->
    ends_with word "s"
    /\ 4 < Py.len word
    /\ ~ ends_with word "ss"
    /\ forall e, In e ["ous"; "ness"; "less"; "ious"; "us"]%string -> ~ ends_with word e.
Proof.
  unfold _is_likely_plural.
  destruct (Py.endswith "s" word) eqn:Hs; cbn [negb orb].
  2: { apply endswith_false in Hs. split; [done | tauto]. }
  apply endswith_spec in Hs.
  destruct (Z.leb_spec (Py.len word) 4) as [Hlen|Hlen].
  { split; [done | lia]. }
  destruct (Py.endswith "ss" word) eqn:Hss.
  { apply endswith_spec in Hss. split; [done | tauto]. }
  apply endswith_false in Hss.
  destruct (existsb (fun ending => Py.endswith ending word) non_plural_endings) eqn:Hex.
  - apply existsb_exists in Hex as (e & Hin & He%endswith_spec).
    split; [done |]. intros (_ & _ & _ & Hall). exfalso. exact (Hall e Hin He).
  - split; [| done]. intros _. repeat split; try done.
    intros e Hin He. apply endswith_spec in He.
    assert (existsb (fun ending => Py.endswith ending word) non_plural_endings = true)
      as Habs by (apply existsb_exists; eauto).
    congruence.
Qed.

(** ** The scorer *)

(** C3: the pangram flag is set exactly when every letter of the set
    occurs in the word; the points are 1 for a word of length 4 and the
    length otherwise, plus the bonus (7 by default) exactly when the flag
    is set. *)
Theorem score_word_spec (word : string) (letters_set : gset string) (pangram_bonus : Z) :
  let points := (_score_word word letters_set pangram_bonus).1 in
  let is_pg := (_score_word word letters_set pangram_bonus).2 in
  (is_pg = true <->
     forall letter, letter ∈ letters_set ->
       exists c, letter = Py.char_str c /\ In c (Py.chars word))
  /\ (is_pg = true <-> letters_set ⊆ Py.set_of_str word)
  /\ points = (if decide (Py.len word = 4) then 1 else Py.len word)
              + (if is_pg then pangram_bonus else 0)
  /\ (_score_word word letters_set pangram_bonus_default).1
     = (if decide (Py.len word = 4) then 1 else Py.len word)
       + (if is_pg then 7 else 0).
Proof.
  cbn zeta. unfold _score_word, _is_pangram. cbn [fst snd].
  rewrite bool_decide_eq_true.
  repeat split.
  - intros Hsub letter Hin. apply elem_of_set_of_str. by apply Hsub.
  - intros Hall letter Hin. apply elem_of_set_of_str. by apply Hall.
  - done.
  - done.
  - destruct (Z.eqb_spec (Py.len word) 4); case_decide; done.
  - destruct (Z.eqb_spec (Py.len word) 4); case_decide; done.
Qed.

(** ** The obscurity heuristic *)

Lemma is_qxz_rare c : is_qxz c = true <-> In c rare_letters.
Proof.
  unfold is_qxz, rare_letters, Py.code. simpl.
  rewrite !orb_true_iff, !N.eqb_eq. split.
  - intros [[H | H] | H]; apply (f_equal ascii_of_N) in H;
      rewrite ascii_N_embedding in H; subst; tauto.
  - intros [<- | [<- | [<- | []]]]; vm_compute; tauto.
Qed.

Lemma is_dot_true c : is_dot c = true <-> c <> newline.
Proof. unfold is_dot. destruct (Ascii.eqb_spec c newline); split; done. Qed.

Lemma at_dollar_line w :
  ~ In newline (Py.chars w) -> (at_dollar w = true <-> w = EmptyString).
Proof.
  intros Hnl. destruct w as [|c [|d w]]; simpl; try done.
  split; [| done]. intros ->%Ascii.eqb_eq. destruct Hnl. by left.
Qed.

(** On a word without line feed, [^.{15,}$] asks for 15 characters. *)
Lemma dots_then_dollar_line n w :
  ~ In newline (Py.chars w) ->
  (dots_then_dollar n w = true <-> (n <= String.length w)%nat).
Proof.
  revert n. induction w as [|c w IH]; intros n Hnl.
  - destruct n; simpl; split; (done || lia).
  - assert (Hc : is_dot c = true) by (apply is_dot_true; intros ->; apply Hnl; by left).
    assert (Hw : ~ In newline (Py.chars w)) by (intros H; apply Hnl; by right).
    destruct n as [|n].
    + cbn [dots_then_dollar]. rewrite Hc, andb_true_l, orb_true_iff, (IH 0%nat Hw).
      split; intros _; [simpl; lia | right; lia].
    + cbn [dots_then_dollar]. rewrite Hc, andb_true_l, (IH n Hw). simpl. lia.
Qed.

Lemma dots_then_rare_pair_run w :
  dots_then_rare_pair w = true -> has_rare_run w.
Proof.
  induction w as [|a w IH]; [done |].
  destruct w as [|b w]; [done |].
  cbn [dots_then_rare_pair].
  intros [[Ha Hb]%andb_true_iff | [_ Hrec]%andb_true_iff]%orb_true_iff.
  - exists EmptyString, a, b, w. by rewrite <- !is_qxz_rare.
  - destruct (IH Hrec) as (p & x & y & q & -> & Hx & Hy).
    exists (String a p), x, y, q. by sapp.
Qed.

Lemma dots_then_rare_pair_cons a w :
  is_dot a = true -> dots_then_rare_pair w = true ->
  dots_then_rare_pair (String a w) = true.
Proof.
  destruct w as [|b w]; [done |]. intros Ha Hrec.
  change (dots_then_rare_pair (String a (String b w)))
    with ((is_qxz a && is_qxz b) || (is_dot a && dots_then_rare_pair (String b w))).
  rewrite Ha, Hrec. apply orb_true_r.
Qed.

(** On a word without line feed, [.*[qxz]{2,}.*] finds any rare run. *)
Lemma dots_then_rare_pair_line w :
  ~ In newline (Py.chars w) ->
  (dots_then_rare_pair w = true <-> has_rare_run w).
Proof.
  intros Hnl. split; [apply dots_then_rare_pair_run |].
  induction w as [|a w IH].
  - intros (p & x & y & q & H & _). destruct p; discriminate.
  - intros (p & x & y & q & H & Hx & Hy).
    destruct p as [|a' p]; sapp.
    + injection H as -> ->. cbn [dots_then_rare_pair].
      apply is_qxz_rare in Hx, Hy. by rewrite Hx, Hy.
    + injection H as <- ->.
      assert (Hrec : dots_then_rare_pair (p +:+ String x (String y q)) = true).
      { apply IH; [intros H; apply Hnl; by right | by exists p, x, y, q]. }
      assert (Ha : is_dot a = true) by (apply is_dot_true; intros ->; apply Hnl; by left).
      by apply dots_then_rare_pair_cons.
Qed.

Lemma sixty_percent_check n k :
  6 <= n <= 14 -> 0 <= k <= n ->
  Py.int_ge_float k (Py.int_mul_float n 0.6%float) = (3 * n <=? 5 * k).
Proof.
  intros Hn Hk.
  assert (Htab : sixty_percent_table = true) by (vm_compute; reflexivity).
  unfold sixty_percent_table in Htab.
  rewrite forallb_forall in Htab.
  specialize (Htab (Z.to_nat n)).
  rewrite forallb_forall in Htab.
  specialize (Htab ltac:(apply in_seq; lia) (Z.to_nat k) ltac:(apply in_seq; lia)).
  rewrite !Z2Nat.id in Htab by lia.
  by apply Bool.eqb_prop in Htab.
Qed.

Lemma String_length_len w n : (n <= String.length w)%nat <-> Z.of_nat n <= Py.len w.
Proof. unfold Py.len. lia. Qed.

(** C7: a word is flagged as obscure exactly when it has at least 15
    characters, or two rare letters of q, x, z in a row, or at least 6
    characters of which one character makes up at least 60%.  A word is
    a token on one line; every dictionary entry is one
    ([dictionary_entry_line], [load_words_entries]). *)
Theorem is_obscure_word_iff (word : string) :
  ~ In newline (Py.chars word) ->
  (_is_obscure_word word = true <->
     15 <= Py.len word
     \/ has_rare_run word
     \/ (6 <= Py.len word
         /\ exists c, In c (Py.chars word)
                      /\ 60 * Py.len word <= 100 * occurrences c word)).
Proof.
  intros Hnl. unfold _is_obscure_word, EXCLUDE_PATTERNS. cbn [existsb].
  rewrite orb_false_r.
  destruct (dots_then_dollar 15 word) eqn:Hlong; cbn [orb].
  { apply (dots_then_dollar_line _ _ Hnl), String_length_len in Hlong.
    split; [intros _; left; exact Hlong | done]. }
  assert (Hshort : Py.len word < 15).
  { destruct (Z.lt_ge_cases (Py.len word) 15) as [|Hge]; [done |].
    apply (String_length_len word 15), (dots_then_dollar_line _ _ Hnl) in Hge.
    congruence. }
  destruct (dots_then_rare_pair word) eqn:Hrare.
  { apply (dots_then_rare_pair_line _ Hnl) in Hrare. split; [tauto | done]. }
  assert (Hnorun : ~ has_rare_run word).
  { intros H%(dots_then_rare_pair_line _ Hnl). congruence. }
  destruct (Z.leb_spec 6 (Py.len word)) as [Hsix | Hsix].
  2: { split; [done |]. intros [? | [? | [? _]]]; [lia | done | lia]. }
  rewrite existsb_exists. split.
  - intros (char & Hin & Hge). right; right. split; [done |].
    apply list_elem_of_In, elem_of_elements, elem_of_set_of_str in Hin
      as (c & -> & Hc).
    exists c. split; [done |].
    rewrite count_char, sixty_percent_check in Hge
      by (pose proof (occurrences_bounds c word); lia).
    apply Z.leb_le in Hge. lia.
  - intros [? | [? | (_ & c & Hc & Hge)]]; [lia | done |].
    exists (Py.char_str c). split.
    + apply list_elem_of_In, elem_of_elements, elem_of_set_of_str. eauto.
    + rewrite count_char, sixty_percent_check
        by (pose proof (occurrences_bounds c word); lia).
      apply Z.leb_le. lia.
Qed.

Lemma is_obscure_word_pizzazz :
  ~ In newline (Py.chars "pizzazz")
  /\ (_is_obscure_word "pizzazz" = true <->
        15 <= Py.len "pizzazz"
        \/ has_rare_run "pizzazz"
        \/ (6 <= Py.len "pizzazz"
            /\ exists c, In c (Py.chars "pizzazz")
                         /\ 60 * Py.len "pizzazz" <= 100 * occurrences c "pizzazz")).
Proof.
  assert (H : ~ In newline (Py.chars "pizzazz")).
  { simpl. intros H. repeat (destruct H as [H | H]; [discriminate H |]). exact H. }
  split; [exact H | exact (is_obscure_word_iff "pizzazz" H)].
Defined.

(** ** The validator *)

Lemma is_valid_word_false word (letters_set : gset string) center min_len fp fo :
  _is_valid_word word letters_set center min_len fp fo = false <->
    Py.len word < min_len
    \/ Py.contains center word = false
    \/ ~ Py.set_of_str word ⊆ letters_set
    \/ (fp = true /\ _is_likely_plural word = true)
    \/ (fo = true /\ _is_obscure_word word = true).
Proof.
  unfold _is_valid_word.
  destruct (Z.ltb_spec (Py.len word) min_len) as [? | Hlen]; [tauto |].
  destruct (Py.contains center word); cbn [negb]; [| tauto].
  case_bool_decide as Hsub; cbn [negb]; [| tauto].
  destruct fp, fo, (_is_likely_plural word), (_is_obscure_word word);
    cbn [andb]; split; try tauto; try done;
    intros [? | [? | [? | [[? ?] | [? ?]]]]]; solve [lia | done].
Qed.

Lemma is_valid_word_true word (letters_set : gset string) center min_len fp fo :
  _is_valid_word word letters_set center min_len fp fo = true <->
    min_len <= Py.len word
    /\ Py.contains center word = true
    /\ Py.set_of_str word ⊆ letters_set
    /\ (fp = true -> _is_likely_plural word = false)
    /\ (fo = true -> _is_obscure_word word = false).
Proof.
  unfold _is_valid_word.
  destruct (Z.ltb_spec (Py.len word) min_len) as [? | Hlen].
  { split; [done | lia]. }
  destruct (Py.contains center word); cbn [negb]; [| by split; [| intros (_ & ? & _)]].
  case_bool_decide as Hsub; cbn [negb]; [| by split; [| intros (_ & _ & ? & _)]].
  destruct fp, fo, (_is_likely_plural word), (_is_obscure_word word); cbn [andb].
  all: split;
    [ intros Hv; repeat split; first [lia | done | intros; congruence]
    | intros (_ & _ & _ & H1 & H2); try done;
      first [by specialize (H1 eq_refl) | by specialize (H2 eq_refl)] ].
Qed.

Lemma subset_set_of_str word (letters_set : gset string) :
  Py.set_of_str word ⊆ letters_set <->
  forall x, In x (Py.chars word) -> Py.char_str x ∈ letters_set.
Proof.
  split.
  - intros Hsub x Hx. apply Hsub, char_str_elem_of, Hx.
  - intros Hall s (x & -> & Hx)%elem_of_set_of_str. by apply Hall.
Qed.

Lemma not_subset_set_of_str word (letters_set : gset string) :
  ~ Py.set_of_str word ⊆ letters_set <->
  exists x, In x (Py.chars word) /\ Py.char_str x ∉ letters_set.
Proof.
  rewrite subset_set_of_str. split.
  - intros Hnot.
    assert (Hex : Exists (fun x => ~ Py.char_str x ∈ letters_set) (Py.chars word)).
    { apply not_Forall_Exists; [intros x; apply _ |].
      intros Hall. apply Hnot. intros x Hx.
      rewrite Forall_forall in Hall. by apply Hall, list_elem_of_In. }
    apply Exists_exists in Hex as (x & Hx & Hnotin).
    exists x. by rewrite <- list_elem_of_In.
  - intros (x & Hx & Hnotin) Hall. by apply Hnotin, Hall.
Qed.

(** C5, as the code has it: the validator also takes the two quality
    flags (both on by default).  It answers false exactly when the word
    is shorter than [min_len], or lacks the center letter, or has a
    character outside the letter set, or a flag is on and its heuristic
    flags the word; otherwise it answers true.  It takes no frequency. *)
Theorem is_valid_word_iff (word : string) (letters_set : gset string)
    (c : ascii) (min_len : Z) (filter_plurals filter_obscure : bool) :
  let verdict := _is_valid_word word letters_set (Py.char_str c) min_len
                                filter_plurals filter_obscure in
  let unfit :=
    Py.len word < min_len
    \/ ~ In c (Py.chars word)
    \/ (exists x, In x (Py.chars word) /\ Py.char_str x ∉ letters_set)
    \/ (filter_plurals = true /\ _is_likely_plural word = true)
    \/ (filter_obscure = true /\ _is_obscure_word word = true) in
  (verdict = false <-> unfit) /\ (verdict = true <-> ~ unfit).
Proof.
  cbn zeta.
  assert (Hfalse : _is_valid_word word letters_set (Py.char_str c) min_len
                     filter_plurals filter_obscure = false <->
    Py.len word < min_len
    \/ ~ In c (Py.chars word)
    \/ (exists x, In x (Py.chars word) /\ Py.char_str x ∉ letters_set)
    \/ (filter_plurals = true /\ _is_likely_plural word = true)
    \/ (filter_obscure = true /\ _is_obscure_word word = true)).
  { rewrite is_valid_word_false, not_subset_set_of_str, <- contains_char.
    destruct (Py.contains (Py.char_str c) word); intuition congruence. }
  split; [exact Hfalse |].
  rewrite <- Hfalse.
  destruct (_is_valid_word _ _ _ _ _ _); split; congruence.
Qed.

(** C5, as stated, fails: called with its four leading arguments, the
    validator rejects "rentals" though it is long enough, holds the
    center letter and stays within the letters. *)
Lemma is_valid_word_rejects_rentals :
  _is_valid_word "rentals" (Py.set_of_str "aelnrst") "n" 4 true true = false
  /\ ~ (Py.len "rentals" < 4
        \/ ~ In "n"%char (Py.chars "rentals")
        \/ exists x, In x (Py.chars "rentals")
                     /\ Py.char_str x ∉ Py.set_of_str "aelnrst").
Proof.
  split; [vm_compute; reflexivity |].
  intros [H | [H | (x & Hx & Hnotin)]].
  - vm_compute in H. discriminate.
  - apply H. simpl. tauto.
  - apply Hnotin, char_str_elem_of. simpl in Hx |- *. tauto.
Qed.

(** ** Sorting *)

Section SortingFacts.
Context {A : Type} (lt : A -> A -> bool).

Lemma insert_perm x l : Py.insert lt x l ≡ₚ x :: l.
Proof.
  induction l as [|y l IH]; simpl; [done |].
  destruct (lt x y); [done |]. rewrite IH. apply Permutation_swap.
Qed.

Lemma fold_insert_perm l acc :
  fold_left (fun acc x => Py.insert lt x acc) l acc ≡ₚ l ++ acc.
Proof.
  revert acc. induction l as [|x l IH]; intros acc; simpl; [done |].
  rewrite IH, insert_perm. by rewrite Permutation_middle.
Qed.

Lemma sorted_perm l : Py.sorted lt l ≡ₚ l.
Proof. unfold Py.sorted. by rewrite fold_insert_perm, app_nil_r. Qed.

Lemma sorted_In x l : In x (Py.sorted lt l) <-> In x l.
Proof. rewrite <- !list_elem_of_In. by rewrite sorted_perm. Qed.

Lemma sorted_length l : length (Py.sorted lt l) = length l.
Proof. by rewrite sorted_perm. Qed.

(** When [<] never holds both ways and "not greater" is transitive,
    the sorted list has no element greater than a later one. *)
Hypothesis lt_asym : forall x y, lt x y = true -> lt y x = false.
Hypothesis ge_trans : forall x y z, lt y x = false -> lt z y = false -> lt z x = false.

Lemma insert_StronglySorted x l :
  StronglySorted (fun a b => lt b a = false) l ->
  StronglySorted (fun a b => lt b a = false) (Py.insert lt x l).
Proof.
  induction 1 as [|y l Hl IH Hy]; simpl.
  - repeat constructor.
  - destruct (lt x y) eqn:Hxy.
    + constructor; [by constructor |].
      constructor; [by apply lt_asym |].
      eapply Forall_impl; [exact Hy |]. intros z Hz. cbn beta in *.
      apply (ge_trans x y z); [by apply lt_asym | done].
    + constructor; [done |].
      rewrite insert_perm. by constructor.
Qed.

Lemma fold_insert_StronglySorted l acc :
  StronglySorted (fun a b => lt b a = false) acc ->
  StronglySorted (fun a b => lt b a = false)
                 (fold_left (fun acc x => Py.insert lt x acc) l acc).
Proof.
  revert acc. induction l as [|x l IH]; intros acc Hacc; simpl; [done |].
  by apply IH, insert_StronglySorted.
Qed.

Lemma sorted_StronglySorted l :
  StronglySorted (fun a b => lt b a = false) (Py.sorted lt l).
Proof. apply fold_insert_StronglySorted. constructor. Qed.
End SortingFacts.

Lemma StronglySorted_before {A} (R : A -> A -> Prop) l1 a l2 b l3 :
  StronglySorted R (l1 ++ a :: l2 ++ b :: l3) -> R a b.
Proof.
  induction l1 as [|x l1 IH]; simpl; intros H.
  - apply StronglySorted_inv in H as [_ Hall].
    rewrite Forall_app, Forall_cons in Hall. tauto.
  - apply StronglySorted_inv in H as [H _]. auto.
Qed.

Lemma string_ltb_false a b : String.ltb b a = false <-> String.leb a b = true.
Proof.
  unfold String.ltb, String.leb. rewrite (String.compare_antisym a b).
  destruct (String.compare b a); simpl; split; congruence.
Qed.

Lemma string_leb_trans a b c :
  String.leb a b = true -> String.leb b c = true -> String.leb a c = true.
Proof.
  intros Hab Hbc. apply Is_true_true.
  change (String.le a c). transitivity b; apply Is_true_true; assumption.
Qed.

(** A result is not after another in the order of [results.sort] when
    its score is higher, or equal with a word that is not greater. *)
Lemma result_lt_false A B :
  result_lt B A = false <->
    WordResult.score A > WordResult.score B
    \/ (WordResult.score A = WordResult.score B
        /\ String.leb (WordResult.word A) (WordResult.word B) = true).
Proof.
  unfold result_lt, key_lt, sort_key. cbn [fst snd].
  destruct (Z.eqb_spec (- WordResult.score B) (- WordResult.score A)) as [Heq | Hne].
  - rewrite string_ltb_false. split; [intros; right; split; [lia | done] |].
    intros [? | [_ ?]]; [lia | done].
  - rewrite Z.ltb_ge. split; [intros; left; lia |].
    intros [? | [? _]]; lia.
Qed.

Lemma result_lt_asym A B : result_lt A B = true -> result_lt B A = false.
Proof.
  unfold result_lt, key_lt, sort_key. cbn [fst snd].
  destruct (Z.eqb_spec (- WordResult.score A) (- WordResult.score B)) as [Heq | Hne].
  - rewrite Heq, Z.eqb_refl. unfold String.ltb.
    rewrite (String.compare_antisym (WordResult.word A) (WordResult.word B)).
    by destruct (String.compare (WordResult.word B) (WordResult.word A)).
  - destruct (Z.eqb_spec (- WordResult.score B) (- WordResult.score A)); [lia |].
    rewrite Z.ltb_lt, Z.ltb_ge. lia.
Qed.

Lemma result_ge_trans A B C :
  result_lt B A = false -> result_lt C B = false -> result_lt C A = false.
Proof.
  rewrite !result_lt_false.
  intros [? | [? Hab]] [? | [? Hbc]]; try (left; lia).
  right. split; [lia |]. by apply (string_leb_trans _ (WordResult.word B)).
Qed.

(** ** The pipeline *)

Lemma uniq_letters_elem x (S : gset string) :
  x ∈ Py.sorted String.ltb (elements S) <-> x ∈ S.
Proof. by rewrite sorted_perm, elem_of_elements. Qed.

Lemma uniq_letters_set_eq (S : gset string) :
  list_to_set (Py.sorted String.ltb (elements S)) = S.
Proof.
  apply set_eq. intros x. by rewrite elem_of_list_to_set, uniq_letters_elem.
Qed.

Lemma uniq_letters_length (S : gset string) :
  length (Py.sorted String.ltb (elements S)) = size S.
Proof. by rewrite sorted_length. Qed.

(** [solve_spellingbee] in terms of the letter set. *)
Lemma solve_spellingbee_eq open_lines zf letters center path min_len bonus
    min_zipf max_len fp fo ag :
  solve_spellingbee open_lines zf letters center path min_len bonus
                    min_zipf max_len fp fo ag =
  if decide (size (letter_set letters) = 7%nat) then
    if decide (Py.lower center ∈ letter_set letters) then
      match _load_words open_lines path with
      | inl e => raise e
      | inr words =>
          let run := loop zf (letter_set letters) (Py.lower center) min_len bonus
                          min_zipf max_len fp fo ag words in
          {| returned := inr (Py.sorted result_lt run.2); lookups := run.1 |}
      end
    else raise (ValueError (CenterNotAmong (Py.lower center)
                  (Py.sorted String.ltb (elements (letter_set letters)))))
  else raise (ValueError (WrongLetterCount (size (letter_set letters)))).
Proof.
  unfold solve_spellingbee. fold (letter_set letters).
  rewrite uniq_letters_length, uniq_letters_set_eq.
  destruct (Nat.eqb_spec (size (letter_set letters)) 7) as [Hsize | Hsize];
    case_decide; try done; cbn [negb].
  case_bool_decide as Hc; rewrite uniq_letters_elem in Hc;
    case_decide; try done; cbn [negb].
  destruct (_load_words open_lines path) as [e | words]; [done |].
  by destruct (loop _ _ _ _ _ _ _ _ _ _ words).
Qed.

Section LoopFacts.
Variables (zf : option (string -> string -> float))
          (letters_set : gset string) (center : string)
          (min_len bonus : Z) (min_zipf : option float) (max_len : option Z)
          (fp fo ag : bool).

#[local] Abbreviation body := (loop_body zf letters_set center min_len bonus min_zipf max_len fp fo ag).
#[local] Abbreviation run := (loop zf letters_set center min_len bonus min_zipf max_len fp fo ag).

Lemma loop_cons word rest :
  run (word :: rest) = ((body word).1 ++ (run rest).1, (body word).2 ++ (run rest).2).
Proof.
  cbn [loop]. by destruct (body word), (run rest).
Qed.

Lemma loop_kept r words :
  In r (run words).2 <-> exists word, In word words /\ In r (body word).2.
Proof.
  induction words as [|w words IH].
  - simpl. split; [done | by intros (? & [] & _)].
  - rewrite loop_cons. cbn [snd]. rewrite in_app_iff, IH. split.
    + intros [H | (w' & Hw' & H)]; [exists w; split; [by left | done] |].
      exists w'. split; [by right | done].
    + intros (w' & [<- | Hw'] & H); [by left | right; eauto].
Qed.

Lemma loop_looked word words :
  In word (run words).1 <-> In word words /\ In word (body word).1.
Proof.
  assert (Hbody : forall w x, In x (body w).1 -> x = w).
  { intros w x. unfold loop_body.
    repeat (match goal with |- context [if ?b then _ else _] => destruct b end;
            simpl; try done).
    destruct min_zipf, zf; simpl; intuition. }
  induction words as [|w words IH].
  - simpl. tauto.
  - rewrite loop_cons. cbn [fst]. rewrite in_app_iff, IH. split.
    + intros [H | [Hin H]].
      * pose proof (Hbody _ _ H) as ->. split; [by left | done].
      * split; [by right | done].
    + intros [[<- | Hin] H]; [by left | by right].
Qed.

(** What a turn of the loop appends: nothing, or the record of the
    word, when the word passes every test that is switched on. *)
Lemma loop_body_kept r word :
  In r (body word).2 <->
    _is_valid_word word letters_set center min_len fp fo = true
    /\ (forall m, max_len = Some m -> Py.len word <= m)
    /\ exists z, r = make_result letters_set bonus word z
       /\ match min_zipf, zf with
          | Some threshold, Some f =>
              z = f word "en"%string
              /\ PrimFloat.ltb z threshold = false
              /\ (ag = true -> 8 <= Py.len word ->
                  PrimFloat.ltb z (PrimFloat.add threshold 0.3%float) = false)
              /\ (ag = true -> 9 <= Py.len word ->
                  PrimFloat.ltb z (PrimFloat.add threshold 0.5%float) = false)
          | _, _ => z = 0%float
          end.
Proof.
  unfold loop_body.
  destruct (_is_valid_word word letters_set center min_len fp fo); cbn [negb snd].
  2: { split; [done | by intros [? _]]. }
  assert (Hmax : (match max_len with Some m => m <? Py.len word | None => false end) = false
                 <-> forall m, max_len = Some m -> Py.len word <= m).
  { destruct max_len as [m |]; [| done].
    rewrite Z.ltb_ge. split; [by intros ? ? [= <-] | eauto]. }
  destruct (match max_len with Some m => m <? Py.len word | None => false end).
  { cbn [snd]. split; [done |]. intros (_ & H & _). by apply Hmax in H. }
  assert (Hm : forall m, max_len = Some m -> Py.len word <= m) by by apply Hmax.
  destruct min_zipf as [threshold |], zf as [f |]; cbn [snd _get_zipf].
  2-4: split; [intros [<- | []]; eauto 6 | intros (_ & _ & z & -> & ->); by left].
  destruct (PrimFloat.ltb (f word "en"%string) threshold) eqn:Hbase.
  { split; [done |]. intros (_ & _ & z & _ & -> & ? & _). congruence. }
  assert (Hmargin : forall n margin,
    ag && (n <=? Py.len word)
       && PrimFloat.ltb (f word "en"%string) (PrimFloat.add threshold margin) = false
    <-> (ag = true -> n <= Py.len word ->
         PrimFloat.ltb (f word "en"%string) (PrimFloat.add threshold margin) = false)).
  { intros n margin.
    destruct ag, (Z.leb_spec n (Py.len word)),
      (PrimFloat.ltb (f word "en"%string) (PrimFloat.add threshold margin));
      cbn [andb]; split; try done; try (intros; lia); auto. }
  pose proof (Hmargin 8 0.3%float) as H8.
  pose proof (Hmargin 9 0.5%float) as H9.
  destruct (ag && (8 <=? Py.len word) && _).
  { split; [done |]. intros (_ & _ & z & _ & -> & _ & Hno & _).
    apply H8 in Hno. congruence. }
  destruct (ag && (9 <=? Py.len word) && _).
  { split; [done |]. intros (_ & _ & z & _ & -> & _ & _ & Hno).
    apply H9 in Hno. congruence. }
  split.
  - intros [<- | []]. split; [done |]. split; [done |].
    exists (f word "en"%string). split; [done |]. split; [done |]. split; [done |].
    split; [by apply H8 | by apply H9].
  - intros (_ & _ & z & -> & -> & _). by left.
Qed.
End LoopFacts.

Lemma make_result_fields (letters_set : gset string) bonus word z :
  let r := make_result letters_set bonus word z in
  WordResult.word r = word
  /\ WordResult.score r = (_score_word word letters_set bonus).1
  /\ WordResult.is_pangram r = (_score_word word letters_set bonus).2
  /\ WordResult.length r = Py.len word
  /\ WordResult.zipf_score r = z.
Proof. unfold make_result. by destruct (_score_word word letters_set bonus). Qed.

Section SolveFacts.
Variables (open_lines : string -> option (list string))
          (zf : option (string -> string -> float))
          (letters : list string) (center path : string)
          (min_len bonus : Z) (min_zipf : option float) (max_len : option Z)
          (fp fo ag : bool).

#[local] Abbreviation out :=
  (solve_spellingbee open_lines zf letters center path min_len bonus
                     min_zipf max_len fp fo ag).
#[local] Abbreviation body :=
  (loop_body zf (letter_set letters) (Py.lower center) min_len bonus
             min_zipf max_len fp fo ag).

(** A list is returned exactly when the configuration is sound and the
    word list can be read; it is the sorted list of what the loop kept. *)
Lemma solve_returned results :
  returned out = inr results <->
    size (letter_set letters) = 7%nat
    /\ Py.lower center ∈ letter_set letters
    /\ exists words, _load_words open_lines path = inr words
       /\ results = Py.sorted result_lt
                      (loop zf (letter_set letters) (Py.lower center) min_len bonus
                            min_zipf max_len fp fo ag words).2.
Proof.
  rewrite solve_spellingbee_eq.
  case_decide as Hsize; [| split; [done | tauto]].
  case_decide as Hcenter; [| split; [done | tauto]].
  destruct (_load_words open_lines path) as [e | words]; cbn [returned raise].
  - split; [done |]. by intros (_ & _ & words & ? & _).
  - split.
    + intros [= <-]. eauto.
    + intros (_ & _ & words' & [= <-] & ->). done.
Qed.

Lemma solve_result_In results words r :
  returned out = inr results ->
  _load_words open_lines path = inr words ->
  In r results <-> exists word, In word words /\ In r (body word).2.
Proof.
  intros (_ & _ & words' & Hload & ->)%solve_returned Hwords.
  rewrite Hload in Hwords. injection Hwords as ->.
  by rewrite sorted_In, loop_kept.
Qed.

Lemma solve_loaded results :
  returned out = inr results -> exists words, _load_words open_lines path = inr words.
Proof. intros (_ & _ & words & Hload & _)%solve_returned. eauto. Qed.

(** Which words are in the list returned. *)
Lemma solve_words results words word :
  returned out = inr results ->
  _load_words open_lines path = inr words ->
  In word (map WordResult.word results) <->
    In word words
    /\ _is_valid_word word (letter_set letters) (Py.lower center) min_len fp fo = true
    /\ (forall m, max_len = Some m -> Py.len word <= m)
    /\ match min_zipf, zf with
       | Some threshold, Some f =>
           PrimFloat.ltb (f word "en"%string) threshold = false
           /\ (ag = true -> 8 <= Py.len word ->
               PrimFloat.ltb (f word "en"%string) (PrimFloat.add threshold 0.3%float) = false)
           /\ (ag = true -> 9 <= Py.len word ->
               PrimFloat.ltb (f word "en"%string) (PrimFloat.add threshold 0.5%float) = false)
       | _, _ => True
       end.
Proof.
  intros Hout Hwords. rewrite in_map_iff. split.
  - intros (r & <- & Hr).
    apply (solve_result_In _ _ _ Hout Hwords) in Hr as (w & Hw & Hr).
    apply loop_body_kept in Hr as (Hvalid & Hmax & z & -> & Hz).
    destruct (make_result_fields (letter_set letters) bonus w z) as (-> & _).
    repeat split; try done.
    destruct min_zipf, zf; try done. by destruct Hz as (-> & ? & ? & ?).
  - intros (Hw & Hvalid & Hmax & Hz).
    exists (make_result (letter_set letters) bonus word
              (match min_zipf, zf with
               | Some _, Some f => f word "en"%string
               | _, _ => 0%float
               end)).
    split; [apply make_result_fields |].
    apply (solve_result_In _ _ _ Hout Hwords). exists word. split; [done |].
    apply loop_body_kept. split; [done |]. split; [done |].
    eexists. split; [reflexivity |].
    by destruct min_zipf, zf.
Qed.

(** The record of a word in the list returned. *)
Lemma solve_result_record results r :
  returned out = inr results -> In r results ->
  _is_valid_word (WordResult.word r) (letter_set letters) (Py.lower center)
                 min_len fp fo = true
  /\ exists z, r = make_result (letter_set letters) bonus (WordResult.word r) z
     /\ match min_zipf, zf with
        | Some _, Some f => z = f (WordResult.word r) "en"%string
        | _, _ => z = 0%float
        end.
Proof.
  intros Hout Hr. destruct (solve_loaded _ Hout) as [words Hwords].
  destruct (proj1 (solve_result_In _ _ r Hout Hwords) Hr) as (w & Hw & Hkept).
  apply loop_body_kept in Hkept as (Hvalid & Hmax & z & -> & Hz).
  destruct (make_result_fields (letter_set letters) bonus w z) as (-> & _).
  split; [done |]. exists z. split; [done |].
  destruct min_zipf, zf; try done. by destruct Hz.
Qed.

(** Without a threshold or without [wordfreq], nothing is looked up. *)
Lemma solve_no_lookups :
  min_zipf = None \/ zf = None -> lookups out = [].
Proof.
  intros Hoff. rewrite solve_spellingbee_eq.
  repeat case_decide; try done.
  destruct (_load_words open_lines path) as [e | words]; [done |].
  cbn [lookups]. induction words as [|w words IH]; [done |].
  rewrite loop_cons. cbn [fst]. rewrite IH, app_nil_r.
  unfold loop_body.
  destruct (negb _); [done |].
  destruct (match max_len with Some m => m <? Py.len w | None => false end); [done |].
  destruct Hoff as [-> | ->]; [done | by destruct min_zipf].
Qed.
End SolveFacts.

(** ** What the specification states about [solve_spellingbee] *)

Lemma lower_char_str c : Py.lower (Py.char_str c) = Py.char_str (Py.ascii_lower c).
Proof. reflexivity. Qed.

(** C1: every word of the list returned has at least [min_len]
    characters, holds the center letter, and has all its characters in
    the letter set. *)
Theorem solve_results_valid open_lines zf letters (c : ascii) path min_len bonus
    min_zipf max_len fp fo ag results :
  returned (solve_spellingbee open_lines zf letters (Py.char_str c) path
              min_len bonus min_zipf max_len fp fo ag) = inr results ->
  Forall (fun r =>
            min_len <= Py.len (WordResult.word r)
            /\ In (Py.ascii_lower c) (Py.chars (WordResult.word r))
            /\ forall x, In x (Py.chars (WordResult.word r)) ->
                         Py.char_str x ∈ letter_set letters)
         results.
Proof.
  intros Hout. apply Forall_forall. intros r Hr.
  apply list_elem_of_In in Hr.
  destruct (solve_result_record _ _ _ _ _ _ _ _ _ _ _ _ _ _ Hout Hr) as [Hvalid _].
  apply is_valid_word_true in Hvalid as (Hlen & Hcenter & Hsub & _).
  rewrite lower_char_str, contains_char in Hcenter.
  split; [done |]. split; [done |]. by apply subset_set_of_str.
Qed.

Lemma solve_results_valid_demo :
  let results := results_of (demo_run (Some demo_zipf) (Some 3.6%float) true) in
  returned (demo_run (Some demo_zipf) (Some 3.6%float) true) = inr results
  /\ Forall (fun r =>
               4 <= Py.len (WordResult.word r)
               /\ In (Py.ascii_lower "N") (Py.chars (WordResult.word r))
               /\ forall x, In x (Py.chars (WordResult.word r)) ->
                            Py.char_str x ∈ letter_set demo_letters)
            results.
Proof.
  cbn zeta. split; [vm_compute; reflexivity |].
  apply (solve_results_valid demo_fs (Some demo_zipf) demo_letters "N"
           "wordlist.txt" 4 7 (Some 3.6%float) (Some 10) true true true).
  vm_compute; reflexivity.
Defined.

(** C2: of two results of the list returned, the earlier one has the
    higher score, or the same score and a word that is not greater. *)
Theorem solve_results_ordered open_lines zf letters center path min_len bonus
    min_zipf max_len fp fo ag results before A between B after :
  returned (solve_spellingbee open_lines zf letters center path
              min_len bonus min_zipf max_len fp fo ag) = inr results ->
  results = before ++ A :: between ++ B :: after ->
  WordResult.score A > WordResult.score B
  \/ (WordResult.score A = WordResult.score B
      /\ String.leb (WordResult.word A) (WordResult.word B) = true).
Proof.
  intros (_ & _ & words & _ & ->)%solve_returned Hsplit.
  apply result_lt_false.
  apply (StronglySorted_before (fun a b => result_lt b a = false)
           before A between B after).
  rewrite <- Hsplit.
  apply sorted_StronglySorted; [apply result_lt_asym | apply result_ge_trans].
Qed.

Lemma solve_results_ordered_demo :
  let results := results_of (demo_run (Some demo_zipf) (Some 3.6%float) true) in
  let A := hd no_result results in
  let B := hd no_result (tl (tl results)) in
  returned (demo_run (Some demo_zipf) (Some 3.6%float) true) = inr results
  /\ results = [] ++ A :: [hd no_result (tl results)] ++ B :: tl (tl (tl results))
  /\ (WordResult.score A > WordResult.score B
      \/ (WordResult.score A = WordResult.score B
          /\ String.leb (WordResult.word A) (WordResult.word B) = true)).
Proof.
  cbn zeta.
  assert (Hout : returned (demo_run (Some demo_zipf) (Some 3.6%float) true)
                 = inr (results_of (demo_run (Some demo_zipf) (Some 3.6%float) true)))
    by (vm_compute; reflexivity).
  split; [exact Hout |].
  assert (Hsplit : results_of (demo_run (Some demo_zipf) (Some 3.6%float) true)
    = [] ++ hd no_result (results_of (demo_run (Some demo_zipf) (Some 3.6%float) true))
         :: [hd no_result (tl (results_of (demo_run (Some demo_zipf) (Some 3.6%float) true)))]
         ++ hd no_result (tl (tl (results_of (demo_run (Some demo_zipf) (Some 3.6%float) true))))
         :: tl (tl (tl (results_of (demo_run (Some demo_zipf) (Some 3.6%float) true)))))
    by (vm_compute; reflexivity).
  split; [exact Hsplit |].
  exact (solve_results_ordered _ _ _ _ _ _ _ _ _ _ _ _ _ _ _ _ _ _ Hout Hsplit).
Defined.

(** C4: the call raises the configuration error exactly when the
    distinct lower-case letters are not 7 or the lower-case center is
    not one of them; it then returns no list, has looked nothing up, and
    does the same whatever the word list and the frequency service. *)
Theorem solve_configuration_error open_lines zf letters center path min_len bonus
    min_zipf max_len fp fo ag :
  let out := solve_spellingbee open_lines zf letters center path
               min_len bonus min_zipf max_len fp fo ag in
  ((exists why, returned out = inl (ValueError why)) <->
     size (letter_set letters) <> 7%nat \/ Py.lower center ∉ letter_set letters)
  /\ ((exists why, returned out = inl (ValueError why)) ->
      lookups out = []
      /\ forall open_lines' zf' path',
           solve_spellingbee open_lines' zf' letters center path'
             min_len bonus min_zipf max_len fp fo ag = out).
Proof.
  cbn zeta.
  assert (Hiff : (exists why,
      returned (solve_spellingbee open_lines zf letters center path
                  min_len bonus min_zipf max_len fp fo ag) = inl (ValueError why)) <->
      size (letter_set letters) <> 7%nat \/ Py.lower center ∉ letter_set letters).
  { rewrite solve_spellingbee_eq.
    case_decide as Hsize; [| split; [tauto | eauto]].
    case_decide as Hcenter; [| split; [tauto | eauto]].
    split; [| tauto]. intros [why Hwhy]. exfalso. revert Hwhy.
    unfold _load_words. by destruct (open_lines path). }
  split; [exact Hiff |].
  intros Hraised%Hiff. rewrite !solve_spellingbee_eq.
  split.
  - repeat case_decide; try done. tauto.
  - intros open_lines' zf' path'. rewrite solve_spellingbee_eq.
    repeat case_decide; try done. tauto.
Qed.

(** C8: with a threshold, [wordfreq] and aggressive filtering, no word
    of 8 or more characters scoring below threshold + 0.3 and no word of
    9 or more characters scoring below threshold + 0.5 is returned;
    without aggressive filtering, or without a threshold, or without
    [wordfreq], a word is returned whenever it passes the other tests. *)
Theorem aggressive_filtering open_lines zf letters center path min_len bonus
    min_zipf max_len fp fo ag results words :
  returned (solve_spellingbee open_lines zf letters center path
              min_len bonus min_zipf max_len fp fo ag) = inr results ->
  _load_words open_lines path = inr words ->
  (forall threshold f,
     min_zipf = Some threshold -> zf = Some f -> ag = true ->
     forall word,
       (8 <= Py.len word
        /\ PrimFloat.ltb (f word "en"%string) (PrimFloat.add threshold 0.3%float) = true)
       \/ (9 <= Py.len word
           /\ PrimFloat.ltb (f word "en"%string) (PrimFloat.add threshold 0.5%float) = true) ->
       ~ In word (map WordResult.word results))
  /\ (ag = false \/ min_zipf = None \/ zf = None ->
      forall word,
        In word (map WordResult.word results) <->
          In word words
          /\ _is_valid_word word (letter_set letters) (Py.lower center)
                            min_len fp fo = true
          /\ (forall m, max_len = Some m -> Py.len word <= m)
          /\ (forall threshold f,
                min_zipf = Some threshold -> zf = Some f ->
                PrimFloat.ltb (f word "en"%string) threshold = false)).
Proof.
  intros Hout Hwords. split.
  - intros threshold f -> -> -> word Hbelow Hin.
    apply (solve_words _ _ _ _ _ _ _ _ _ _ _ _ _ _ _ Hout Hwords)
      in Hin as (_ & _ & _ & _ & H8 & H9).
    destruct Hbelow as [[Hlen Hlt] | [Hlen Hlt]].
    + rewrite (H8 eq_refl Hlen) in Hlt. discriminate.
    + rewrite (H9 eq_refl Hlen) in Hlt. discriminate.
  - intros Hoff word.
    rewrite (solve_words _ _ _ _ _ _ _ _ _ _ _ _ _ _ _ Hout Hwords).
    destruct min_zipf as [threshold |], zf as [f |].
    2-4: split; [intros (? & ? & ? & _); repeat split; try done
                | intros (? & ? & ? & _); done].
    destruct Hoff as [-> | [? | ?]]; try done.
    split.
    + intros (? & ? & ? & ? & _). repeat split; try done. by intros ? ? [= <-] [= <-].
    + intros (? & ? & ? & Hbase). repeat split; try done. by apply Hbase.
Qed.

Lemma aggressive_filtering_demo :
  let strict := demo_run (Some demo_zipf) (Some 3.6%float) true in
  let plain := demo_run (Some demo_zipf) (Some 3.6%float) false in
  (returned strict = inr (results_of strict)
   /\ _load_words demo_fs "wordlist.txt" = inr (loaded_words demo_fs "wordlist.txt"))
  /\ ~ In "antennae"%string (map WordResult.word (results_of strict))
  /\ ~ In "reentrant"%string (map WordResult.word (results_of strict))
  /\ In "antennae"%string (map WordResult.word (results_of plain))
  /\ In "reentrant"%string (map WordResult.word (results_of plain)).
Proof.
  cbn zeta.
  assert (Hstrict : returned (demo_run (Some demo_zipf) (Some 3.6%float) true)
            = inr (results_of (demo_run (Some demo_zipf) (Some 3.6%float) true)))
    by (vm_compute; reflexivity).
  assert (Hplain : returned (demo_run (Some demo_zipf) (Some 3.6%float) false)
            = inr (results_of (demo_run (Some demo_zipf) (Some 3.6%float) false)))
    by (vm_compute; reflexivity).
  assert (Hload : _load_words demo_fs "wordlist.txt"
                  = inr (loaded_words demo_fs "wordlist.txt"))
    by (vm_compute; reflexivity).
  pose proof (aggressive_filtering _ _ _ _ _ _ _ _ _ _ _ _ _ _ Hstrict Hload)
    as [Hreject _].
  pose proof (aggressive_filtering _ _ _ _ _ _ _ _ _ _ _ _ _ _ Hplain Hload)
    as [_ Hkeep].
  split; [split; [exact Hstrict | exact Hload] |].
  split.
  { apply (Hreject 3.6%float demo_zipf eq_refl eq_refl eq_refl).
    left. split; vm_compute; [discriminate | reflexivity]. }
  split.
  { apply (Hreject 3.6%float demo_zipf eq_refl eq_refl eq_refl).
    right. split; vm_compute; [discriminate | reflexivity]. }
  split.
  - apply (Hkeep (or_introl eq_refl)).
    split; [vm_compute; tauto |]. split; [vm_compute; reflexivity |].
    split; [intros m [= <-]; vm_compute; discriminate |].
    intros threshold f [= <-] [= <-]. vm_compute; reflexivity.
  - apply (Hkeep (or_introl eq_refl)).
    split; [vm_compute; tauto |]. split; [vm_compute; reflexivity |].
    split; [intros m [= <-]; vm_compute; discriminate |].
    intros threshold f [= <-] [= <-]. vm_compute; reflexivity.
Defined.

Lemma loop_without_wordfreq (letters_set : gset string) center min_len bonus
    min_zipf max_len fp fo ag words :
  loop None letters_set center min_len bonus min_zipf max_len fp fo ag words
  = loop None letters_set center min_len bonus None max_len fp fo false words.
Proof.
  induction words as [|w words IH]; [done |].
  rewrite !loop_cons, IH. unfold loop_body. by destruct min_zipf.
Qed.

(** C9: without [wordfreq] the oracle answers 0.0 for every word; the
    call does what it does with no threshold and no aggressive filtering,
    so a word is returned whenever it passes the validator and the length
    cap; and every record returned has the frequency 0.0. *)
Theorem degraded_mode open_lines letters center path min_len bonus
    min_zipf max_len fp fo ag :
  let out := solve_spellingbee open_lines None letters center path
               min_len bonus min_zipf max_len fp fo ag in
  (forall word, _get_zipf None word = 0%float)
  /\ out = solve_spellingbee open_lines None letters center path
             min_len bonus None max_len fp fo false
  /\ forall results words,
       returned out = inr results ->
       _load_words open_lines path = inr words ->
       (forall word,
          In word (map WordResult.word results) <->
            In word words
            /\ _is_valid_word word (letter_set letters) (Py.lower center)
                              min_len fp fo = true
            /\ (forall m, max_len = Some m -> Py.len word <= m))
       /\ Forall (fun r => WordResult.zipf_score r = 0%float) results.
Proof.
  cbn zeta. split; [done |]. split.
  { rewrite !solve_spellingbee_eq. repeat case_decide; try done.
    destruct (_load_words open_lines path); [done |].
    cbn zeta. by rewrite loop_without_wordfreq. }
  intros results words Hout Hwords. split.
  - intros word.
    rewrite (solve_words _ _ _ _ _ _ _ _ _ _ _ _ _ _ _ Hout Hwords).
    destruct min_zipf; tauto.
  - apply Forall_forall. intros r Hr%list_elem_of_In.
    destruct (solve_result_record _ _ _ _ _ _ _ _ _ _ _ _ _ _ Hout Hr)
      as (_ & z & -> & Hz).
    destruct (make_result_fields (letter_set letters) bonus (WordResult.word r) z)
      as (_ & _ & _ & _ & ->).
    by destruct min_zipf.
Qed.

Lemma degraded_mode_demo :
  let out := demo_run None (Some 3.6%float) true in
  (returned out = inr (results_of out)
   /\ _load_words demo_fs "wordlist.txt" = inr (loaded_words demo_fs "wordlist.txt"))
  /\ In "learnt"%string (map WordResult.word (results_of out))
  /\ Forall (fun r => WordResult.zipf_score r = 0%float) (results_of out).
Proof.
  cbn zeta.
  assert (Hout : returned (demo_run None (Some 3.6%float) true)
            = inr (results_of (demo_run None (Some 3.6%float) true)))
    by (vm_compute; reflexivity).
  assert (Hload : _load_words demo_fs "wordlist.txt"
                  = inr (loaded_words demo_fs "wordlist.txt"))
    by (vm_compute; reflexivity).
  destruct (degraded_mode demo_fs demo_letters "N" "wordlist.txt" 4 7
              (Some 3.6%float) (Some 10) true true true) as (_ & _ & Hsucc).
  destruct (Hsucc _ _ Hout Hload) as [Hwords Hzero].
  split; [split; [exact Hout | exact Hload] |].
  split; [| exact Hzero].
  apply Hwords.
  split; [vm_compute; tauto |]. split; [vm_compute; reflexivity |].
  intros m [= <-]; vm_compute; discriminate.
Defined.

(** C10: with no threshold the call looks nothing up, whatever the
    frequency service and the aggressive flag; a word is returned
    whenever it passes the validator and the length cap; and every
    record returned has the frequency 0.0. *)
Theorem no_threshold_no_lookup open_lines zf letters center path min_len bonus
    max_len fp fo ag :
  let out := solve_spellingbee open_lines zf letters center path
               min_len bonus None max_len fp fo ag in
  lookups out = []
  /\ forall results words,
       returned out = inr results ->
       _load_words open_lines path = inr words ->
       (forall word,
          In word (map WordResult.word results) <->
            In word words
            /\ _is_valid_word word (letter_set letters) (Py.lower center)
                              min_len fp fo = true
            /\ (forall m, max_len = Some m -> Py.len word <= m))
       /\ Forall (fun r => WordResult.zipf_score r = 0%float) results.
Proof.
  cbn zeta. split; [apply solve_no_lookups; by left |].
  intros results words Hout Hwords. split.
  - intros word.
    rewrite (solve_words _ _ _ _ _ _ _ _ _ _ _ _ _ _ _ Hout Hwords). tauto.
  - apply Forall_forall. intros r Hr%list_elem_of_In.
    destruct (solve_result_record _ _ _ _ _ _ _ _ _ _ _ _ _ _ Hout Hr)
      as (_ & z & -> & ->).
    apply make_result_fields.
Qed.

Lemma no_threshold_no_lookup_demo :
  let out := demo_run (Some demo_zipf) None true in
  (returned out = inr (results_of out)
   /\ _load_words demo_fs "wordlist.txt" = inr (loaded_words demo_fs "wordlist.txt"))
  /\ lookups out = []
  /\ In "reentrant"%string (map WordResult.word (results_of out))
  /\ Forall (fun r => WordResult.zipf_score r = 0%float) (results_of out).
Proof.
  cbn zeta.
  assert (Hout : returned (demo_run (Some demo_zipf) None true)
            = inr (results_of (demo_run (Some demo_zipf) None true)))
    by (vm_compute; reflexivity).
  assert (Hload : _load_words demo_fs "wordlist.txt"
                  = inr (loaded_words demo_fs "wordlist.txt"))
    by (vm_compute; reflexivity).
  destruct (no_threshold_no_lookup demo_fs (Some demo_zipf) demo_letters "N"
              "wordlist.txt" 4 7 (Some 10) true true true) as (Hnone & Hsucc).
  destruct (Hsucc _ _ Hout Hload) as [Hwords Hzero].
  split; [split; [exact Hout | exact Hload] |].
  split; [exact Hnone |]. split; [| exact Hzero].
  apply Hwords.
  split; [vm_compute; tauto |]. split; [vm_compute; reflexivity |].
  intros m [= <-]; vm_compute; discriminate.
Defined.

(** * Further properties of the code *)

(** ** The word list, again *)

Lemma entry_matches w : dictionary_entry w -> _WORD_RE_match w = true.
Proof.
  unfold _WORD_RE_match. intros [Hne Haz].
  induction w as [|a w IH]; [done |].
  cbn [Py.chars list_ascii_of_string] in Haz.
  apply Forall_cons in Haz as [Ha Haz]. fold (Py.chars w) in Haz.
  cbn [az_then_dollar]. rewrite Ha, andb_true_l.
  destruct w as [|b w]; [done |].
  rewrite IH; [apply orb_true_r | done | done].
Qed.



Lemma is_az_not_space c : is_az c = true -> Py.isspace c = false.
Proof. destruct c as [[] [] [] [] [] [] [] []]; vm_compute; congruence. Qed.

Lemma is_az_lower c : is_az c = true -> Py.ascii_lower c = c.
Proof. destruct c as [[] [] [] [] [] [] [] []]; vm_compute; congruence. Qed.

Lemma entry_lower w :
  Forall (fun c => is_az c = true) (Py.chars w) -> Py.lower w = w.
Proof.
  induction w as [|a w IH]; [done |].
  cbn [Py.chars list_ascii_of_string Py.lower].
  intros [Ha Haz]%Forall_cons. by rewrite (is_az_lower a Ha), IH.
Qed.

Lemma entry_rstrip w tail :
  Forall (fun c => is_az c = true) (Py.chars w) ->
  Py.rstrip tail = EmptyString ->
  Py.rstrip (w +:+ tail) = w.
Proof.
  intros Haz Htail. induction w as [|a w IH]; sapp; [done |].
  cbn [Py.chars list_ascii_of_string] in Haz.
  apply Forall_cons in Haz as [Ha Haz]. fold (Py.chars w) in Haz.
  cbn [Py.rstrip]. rewrite (IH Haz).
  destruct w; [by rewrite (is_az_not_space a Ha) | done].
Qed.

Lemma entry_lstrip w tail :
  dictionary_entry w -> Py.lstrip (w +:+ tail) = w +:+ tail.
Proof.
  intros [Hne Haz]. destruct w as [|a w]; [done |]. sapp.
  cbn [Py.chars list_ascii_of_string] in Haz.
  apply Forall_cons in Haz as [Ha _].
  cbn [Py.lstrip]. by rewrite (is_az_not_space a Ha).
Qed.

(** Writing the words that were loaded one to a line and loading that
    file gives the same words back. *)
Theorem load_words_reload open_lines path words open_lines' path' :
  _load_words open_lines path = inr words ->
  open_lines' path' = Some ((fun w => w +:+ String newline EmptyString) <$> words) ->
  _load_words open_lines' path' = inr words.
Proof.
  intros Hload Hopen.
  pose proof (load_words_entries _ _ _ Hload) as Hentries.
  unfold _load_words at 1. rewrite Hopen. f_equal.
  clear Hload Hopen. induction words as [|w words IH]; [done |].
  assert (Hw : dictionary_entry w) by (apply Hentries; by left).
  cbn [fmap list_fmap].
  assert (Hnorm : Py.lower (Py.strip (w +:+ String newline EmptyString)) = w).
  { unfold Py.strip. rewrite (entry_lstrip _ _ Hw).
    destruct Hw as [_ Haz]. rewrite (entry_rstrip _ _ Haz); [| done].
    by apply entry_lower. }
  rewrite Hnorm, filter_cons_True by by apply entry_matches.
  f_equal. apply IH. intros v Hv. apply Hentries. by right.
Qed.

Lemma load_words_reload_demo :
  let words := loaded_words demo_fs "wordlist.txt" in
  let fs' := fun _ : string => Some ((fun w => w +:+ String newline EmptyString) <$> words) in
  (_load_words demo_fs "wordlist.txt" = inr words
   /\ fs' "copy.txt"%string = Some ((fun w => w +:+ String newline EmptyString) <$> words))
  /\ _load_words fs' "copy.txt" = inr words.
Proof.
  cbn zeta.
  assert (Hload : _load_words demo_fs "wordlist.txt"
                  = inr (loaded_words demo_fs "wordlist.txt"))
    by (vm_compute; reflexivity).
  split; [split; [exact Hload | reflexivity] |].
  exact (load_words_reload demo_fs "wordlist.txt" _ _ "copy.txt" Hload eq_refl).
Defined.

(** ** Failures of [solve_spellingbee] *)


(** ** What the call depends on *)

(** Only the set of the lower-case letters and the lower-case center
    count: case, order and repetition of the letters change nothing, not
    even the error raised. *)
Theorem solve_letters_normalised open_lines zf letters1 center1 letters2 center2
    path min_len bonus min_zipf max_len fp fo ag :
  letter_set letters1 = letter_set letters2 ->
  Py.lower center1 = Py.lower center2 ->
  solve_spellingbee open_lines zf letters1 center1 path
                    min_len bonus min_zipf max_len fp fo ag
  = solve_spellingbee open_lines zf letters2 center2 path
                      min_len bonus min_zipf max_len fp fo ag.
Proof. intros Hset Hcenter. by rewrite !solve_spellingbee_eq, Hset, Hcenter. Qed.

Lemma solve_letters_normalised_demo :
  let shuffled := ["t"; "S"; "r"; "n"; "L"; "e"; "a"; "A"; "t"]%string in
  (letter_set demo_letters = letter_set shuffled
   /\ Py.lower "N" = Py.lower "n")
  /\ demo_run (Some demo_zipf) (Some 3.6%float) true
     = solve_spellingbee demo_fs (Some demo_zipf) shuffled "n" "wordlist.txt" 4 7
                         (Some 3.6%float) (Some 10) true true true.
Proof.
  cbn zeta.
  assert (Hset : letter_set demo_letters
                 = letter_set ["t"; "S"; "r"; "n"; "L"; "e"; "a"; "A"; "t"]%string)
    by (vm_compute; reflexivity).
  split; [split; [exact Hset | reflexivity] |].
  exact (solve_letters_normalised demo_fs (Some demo_zipf) _ "N" _ "n" "wordlist.txt"
           4 7 (Some 3.6%float) (Some 10) true true true Hset eq_refl).
Defined.

(** ** What the list returned holds *)

(** No word returned is longer than [max_len] when one is given, is a
    likely plural when plurals are filtered, or is obscure when obscure
    words are filtered. *)
Theorem solve_results_filtered open_lines zf letters center path min_len bonus
    min_zipf max_len fp fo ag results :
  returned (solve_spellingbee open_lines zf letters center path
              min_len bonus min_zipf max_len fp fo ag) = inr results ->
  Forall (fun r =>
            (forall m, max_len = Some m -> Py.len (WordResult.word r) <= m)
            /\ (fp = true -> _is_likely_plural (WordResult.word r) = false)
            /\ (fo = true -> _is_obscure_word (WordResult.word r) = false))
         results.
Proof.
  intros Hout. apply Forall_forall. intros r Hr%list_elem_of_In.
  destruct (solve_loaded _ _ _ _ _ _ _ _ _ _ _ _ _ Hout) as [words Hwords].
  assert (Hin : In (WordResult.word r) (map WordResult.word results))
    by (apply in_map_iff; eauto).
  apply (solve_words _ _ _ _ _ _ _ _ _ _ _ _ _ _ _ Hout Hwords)
    in Hin as (_ & Hvalid & Hmax & _).
  apply is_valid_word_true in Hvalid as (_ & _ & _ & Hfp & Hfo). done.
Qed.

Lemma solve_results_filtered_demo :
  let out := demo_run (Some demo_zipf) None false in
  returned out = inr (results_of out)
  /\ Forall (fun r =>
               (forall m, Some 10 = Some m -> Py.len (WordResult.word r) <= m)
               /\ (true = true -> _is_likely_plural (WordResult.word r) = false)
               /\ (true = true -> _is_obscure_word (WordResult.word r) = false))
            (results_of out).
Proof.
  cbn zeta.
  assert (Hout : returned (demo_run (Some demo_zipf) None false)
                 = inr (results_of (demo_run (Some demo_zipf) None false)))
    by (vm_compute; reflexivity).
  split; [exact Hout |].
  exact (solve_results_filtered _ _ _ _ _ _ _ _ _ _ _ _ _ Hout).
Defined.

(** With a threshold and [wordfreq], every record returned carries the
    frequency of its word, and that frequency is not below the
    threshold. *)
Theorem solve_results_frequent open_lines f letters center path min_len bonus
    threshold max_len fp fo ag results :
  returned (solve_spellingbee open_lines (Some f) letters center path
              min_len bonus (Some threshold) max_len fp fo ag) = inr results ->
  Forall (fun r =>
            WordResult.zipf_score r = f (WordResult.word r) "en"%string
            /\ PrimFloat.ltb (WordResult.zipf_score r) threshold = false)
         results.
Proof.
  intros Hout. apply Forall_forall. intros r Hr%list_elem_of_In.
  destruct (solve_loaded _ _ _ _ _ _ _ _ _ _ _ _ _ Hout) as [words Hwords].
  destruct (solve_result_record _ _ _ _ _ _ _ _ _ _ _ _ _ _ Hout Hr)
    as (_ & z & Hr' & ->).
  assert (Hin : In (WordResult.word r) (map WordResult.word results))
    by (apply in_map_iff; eauto).
  apply (solve_words _ _ _ _ _ _ _ _ _ _ _ _ _ _ _ Hout Hwords)
    in Hin as (_ & _ & _ & Hbase & _).
  rewrite Hr' at 1 3.
  destruct (make_result_fields (letter_set letters) bonus (WordResult.word r)
              (f (WordResult.word r) "en"%string)) as (_ & _ & _ & _ & ->).
  done.
Qed.

Lemma solve_results_frequent_demo :
  let out := demo_run (Some demo_zipf) (Some 3.6%float) false in
  returned out = inr (results_of out)
  /\ Forall (fun r =>
               WordResult.zipf_score r = demo_zipf (WordResult.word r) "en"%string
               /\ PrimFloat.ltb (WordResult.zipf_score r) 3.6%float = false)
            (results_of out).
Proof.
  cbn zeta.
  assert (Hout : returned (demo_run (Some demo_zipf) (Some 3.6%float) false)
                 = inr (results_of (demo_run (Some demo_zipf) (Some 3.6%float) false)))
    by (vm_compute; reflexivity).
  split; [exact Hout |].
  exact (solve_results_frequent _ _ _ _ _ _ _ _ _ _ _ _ _ Hout).
Defined.

(** Every record returned is consistent: its length is that of its
    word, its pangram flag says whether the word has every letter, and
    its score is 1 for four characters and the length otherwise, plus the
    bonus for a pangram. *)
Theorem solve_results_consistent open_lines zf letters center path min_len bonus
    min_zipf max_len fp fo ag results :
  returned (solve_spellingbee open_lines zf letters center path
              min_len bonus min_zipf max_len fp fo ag) = inr results ->
  Forall (fun r =>
            WordResult.length r = Py.len (WordResult.word r)
            /\ (WordResult.is_pangram r = true <->
                  forall letter, letter ∈ letter_set letters ->
                    exists c, letter = Py.char_str c
                              /\ In c (Py.chars (WordResult.word r)))
            /\ WordResult.score r
               = (if decide (WordResult.length r = 4) then 1 else WordResult.length r)
                 + (if WordResult.is_pangram r then bonus else 0))
         results.
Proof.
  intros Hout. apply Forall_forall. intros r Hr%list_elem_of_In.
  destruct (solve_result_record _ _ _ _ _ _ _ _ _ _ _ _ _ _ Hout Hr)
    as (_ & z & Hr' & _).
  destruct (make_result_fields (letter_set letters) bonus (WordResult.word r) z)
    as (_ & Hscore & Hpg & Hlen & _).
  rewrite <- Hr' in Hscore, Hpg, Hlen. rewrite Hscore, Hpg, Hlen.
  unfold _score_word, _is_pangram. cbn [fst snd].
  split; [done |]. split.
  - rewrite bool_decide_eq_true. split.
    + intros Hsub letter Hin. apply elem_of_set_of_str. by apply Hsub.
    + intros Hall letter Hin. apply elem_of_set_of_str. by apply Hall.
  - destruct (Z.eqb_spec (Py.len (WordResult.word r)) 4); case_decide; done.
Qed.

Lemma solve_results_consistent_demo :
  let out := demo_run None None false in
  returned out = inr (results_of out)
  /\ Forall (fun r =>
            WordResult.length r = Py.len (WordResult.word r)
            /\ (WordResult.is_pangram r = true <->
                  forall letter, letter ∈ letter_set demo_letters ->
                    exists c, letter = Py.char_str c
                              /\ In c (Py.chars (WordResult.word r)))
            /\ WordResult.score r
               = (if decide (WordResult.length r = 4) then 1 else WordResult.length r)
                 + (if WordResult.is_pangram r then 7 else 0))
         (results_of out).
Proof.
  cbn zeta.
  assert (Hout : returned (demo_run None None false)
                 = inr (results_of (demo_run None None false)))
    by (vm_compute; reflexivity).
  split; [exact Hout |].
  exact (solve_results_consistent _ _ _ _ _ _ _ _ _ _ _ _ _ Hout).
Defined.





(** ** What is looked up *)

(** With a threshold and [wordfreq], the words looked up are the loaded
    words that pass the validator and the length cap, in the order of the
    file: the frequency of a word that the cheaper tests reject is never
    asked for. *)
Theorem solve_lookups_after_cheap_tests open_lines f letters center path min_len
    bonus threshold max_len fp fo ag results words :
  returned (solve_spellingbee open_lines (Some f) letters center path
              min_len bonus (Some threshold) max_len fp fo ag) = inr results ->
  _load_words open_lines path = inr words ->
  lookups (solve_spellingbee open_lines (Some f) letters center path
             min_len bonus (Some threshold) max_len fp fo ag)
  = List.filter
      (fun word =>
         _is_valid_word word (letter_set letters) (Py.lower center) min_len fp fo
         && negb (match max_len with
                  | Some m => m <? Py.len word
                  | None => false
                  end))
      words.
Proof.
  intros (Hsize & Hcenter & _)%solve_returned Hwords.
  rewrite solve_spellingbee_eq, Hwords.
  repeat case_decide; try done. cbn [lookups].
  clear Hwords. induction words as [|w words IH]; [done |].
  rewrite loop_cons. cbn [fst List.filter]. rewrite IH.
  unfold loop_body.
  destruct (_is_valid_word w _ _ _ _ _); cbn [negb andb]; [| done].
  by destruct (match max_len with Some m => m <? Py.len w | None => false end).
Qed.

Lemma solve_lookups_after_cheap_tests_demo :
  let out := demo_run (Some demo_zipf) (Some 3.6%float) true in
  (returned out = inr (results_of out)
   /\ _load_words demo_fs "wordlist.txt" = inr (loaded_words demo_fs "wordlist.txt"))
  /\ lookups out
     = ["rental"; "learnt"; "lean"; "eternal"; "antennae"; "reentrant"; "lantern"]%string.
Proof.
  cbn zeta.
  assert (Hout : returned (demo_run (Some demo_zipf) (Some 3.6%float) true)
            = inr (results_of (demo_run (Some demo_zipf) (Some 3.6%float) true)))
    by (vm_compute; reflexivity).
  assert (Hload : _load_words demo_fs "wordlist.txt"
                  = inr (loaded_words demo_fs "wordlist.txt"))
    by (vm_compute; reflexivity).
  split; [split; [exact Hout | exact Hload] |].
  unfold demo_run.
  rewrite (solve_lookups_after_cheap_tests _ _ _ _ _ _ _ _ _ _ _ _ _ _ Hout Hload).
  vm_compute. reflexivity.
Defined.

(** ** The list returned as a selection from the word list *)

Lemma loop_kept_words zf (letters_set : gset string) center min_len bonus
    min_zipf max_len fp fo ag words :
  sublist (map WordResult.word
             (loop zf letters_set center min_len bonus min_zipf max_len fp fo ag words).2)
          words.
Proof.
  induction words as [|w words IH]; [constructor |].
  rewrite loop_cons. cbn [snd]. rewrite map_app.
  assert (Hbody : map WordResult.word
            (loop_body zf letters_set center min_len bonus min_zipf max_len fp fo ag w).2 = []
          \/ map WordResult.word
            (loop_body zf letters_set center min_len bonus min_zipf max_len fp fo ag w).2 = [w]).
  { unfold loop_body.
    assert (Hw : forall z, map WordResult.word [make_result letters_set bonus w z] = [w]).
    { intros z. cbn [map]. by destruct (make_result_fields letters_set bonus w z) as [-> _]. }
    destruct (negb _); [by left |].
    destruct (match max_len with Some m => m <? Py.len w | None => false end); [by left |].
    destruct min_zipf, zf; cbn [snd]; try (right; apply Hw).
    repeat match goal with
           | |- context [if ?b then _ else _] => destruct b
           end; (by left) || (right; apply Hw). }
  destruct Hbody as [-> | ->]; simpl; by constructor.
Qed.

(** The words returned are chosen from the loaded words, each at most as
    often as the file has it: the list is no longer than the word list,
    and it repeats no word when the word list repeats none. *)
Theorem solve_results_selected open_lines zf letters center path min_len bonus
    min_zipf max_len fp fo ag results words :
  returned (solve_spellingbee open_lines zf letters center path
              min_len bonus min_zipf max_len fp fo ag) = inr results ->
  _load_words open_lines path = inr words ->
  map WordResult.word results ⊆+ words
  /\ (length results <= length words)%nat
  /\ (NoDup words -> NoDup (map WordResult.word results)).
Proof.
  intros (_ & _ & words' & Hload & ->)%solve_returned Hwords.
  rewrite Hload in Hwords. injection Hwords as ->.
  assert (Hsub : map WordResult.word
                   (Py.sorted result_lt
                      (loop zf (letter_set letters) (Py.lower center) min_len bonus
                            min_zipf max_len fp fo ag words).2) ⊆+ words).
  { rewrite sorted_perm. apply sublist_submseteq, loop_kept_words. }
  split; [exact Hsub |]. split.
  - apply submseteq_length in Hsub. by rewrite length_map in Hsub.
  - intros Hnodup.
    rewrite (Permutation_map WordResult.word (sorted_perm result_lt _)).
    eapply sublist_NoDup; [exact Hnodup | apply loop_kept_words].
Qed.

Lemma solve_results_selected_demo :
  let out := demo_run None None false in
  (returned out = inr (results_of out)
   /\ _load_words demo_fs "wordlist.txt" = inr (loaded_words demo_fs "wordlist.txt"))
  /\ map WordResult.word (results_of out) ⊆+ loaded_words demo_fs "wordlist.txt"
  /\ (length (results_of out) <= length (loaded_words demo_fs "wordlist.txt"))%nat
  /\ (NoDup (loaded_words demo_fs "wordlist.txt") ->
      NoDup (map WordResult.word (results_of out))).
Proof.
  cbn zeta.
  assert (Hout : returned (demo_run None None false)
                 = inr (results_of (demo_run None None false)))
    by (vm_compute; reflexivity).
  assert (Hload : _load_words demo_fs "wordlist.txt"
                  = inr (loaded_words demo_fs "wordlist.txt"))
    by (vm_compute; reflexivity).
  split; [split; [exact Hout | exact Hload] |].
  exact (solve_results_selected _ _ _ _ _ _ _ _ _ _ _ _ _ _ Hout Hload).
Defined.

(** ** Switching the filters off *)

(** With no threshold, no length cap and both heuristics off, the words
    returned are the loaded words that have at least [min_len]
    characters, hold the center letter and stay within the letters. *)
Theorem solve_unfiltered open_lines zf letters (c : ascii) path min_len bonus ag
    results words :
  returned (solve_spellingbee open_lines zf letters (Py.char_str c) path
              min_len bonus None None false false ag) = inr results ->
  _load_words open_lines path = inr words ->
  forall word,
    In word (map WordResult.word results) <->
      In word words
      /\ min_len <= Py.len word
      /\ In (Py.ascii_lower c) (Py.chars word)
      /\ forall x, In x (Py.chars word) -> Py.char_str x ∈ letter_set letters.
Proof.
  intros Hout Hwords word.
  rewrite (solve_words _ _ _ _ _ _ _ _ _ _ _ _ _ _ _ Hout Hwords).
  rewrite is_valid_word_true, lower_char_str, contains_char, subset_set_of_str.
  split.
  - intros (? & (? & ? & ? & _) & _). done.
  - intros (? & ? & ? & ?). done.
Qed.

Lemma solve_unfiltered_demo :
  let out := solve_spellingbee demo_fs None demo_letters "N" "wordlist.txt" 4 7
               None None false false false in
  (returned out = inr (results_of out)
   /\ _load_words demo_fs "wordlist.txt" = inr (loaded_words demo_fs "wordlist.txt"))
  /\ In "tarts"%string (loaded_words demo_fs "wordlist.txt")
  /\ ~ In "tarts"%string (map WordResult.word (results_of out)).
Proof.
  cbn zeta.
  assert (Hout : returned (solve_spellingbee demo_fs None demo_letters "N"
                             "wordlist.txt" 4 7 None None false false false)
            = inr (results_of (solve_spellingbee demo_fs None demo_letters "N"
                                 "wordlist.txt" 4 7 None None false false false)))
    by (vm_compute; reflexivity).
  assert (Hload : _load_words demo_fs "wordlist.txt"
                  = inr (loaded_words demo_fs "wordlist.txt"))
    by (vm_compute; reflexivity).
  split; [split; [exact Hout | exact Hload] |].
  split; [vm_compute; tauto |].
  intros Hin.
  apply (solve_unfiltered demo_fs None demo_letters "N" "wordlist.txt" 4 7 false
           _ _ Hout Hload) in Hin as (_ & _ & Hcenter & _).
  vm_compute in Hcenter. repeat (destruct Hcenter as [Hcenter | Hcenter]; [discriminate |]).
  exact Hcenter.
Defined.

(** A filter only removes words: with the threshold dropped or kept, the
    length cap dropped or kept, and no flag switched on that was off,
    every word returned before is still returned. *)
Theorem solve_filters_only_remove open_lines zf letters center path min_len bonus
    min_zipf max_len fp fo ag min_zipf' max_len' fp' fo' ag' results results' :
  (min_zipf' = None \/ min_zipf' = min_zipf) ->
  (max_len' = None \/ max_len' = max_len) ->
  (fp' = true -> fp = true) ->
  (fo' = true -> fo = true) ->
  (ag' = true -> ag = true) ->
  returned (solve_spellingbee open_lines zf letters center path
              min_len bonus min_zipf max_len fp fo ag) = inr results ->
  returned (solve_spellingbee open_lines zf letters center path
              min_len bonus min_zipf' max_len' fp' fo' ag') = inr results' ->
  forall word,
    In word (map WordResult.word results) -> In word (map WordResult.word results').
Proof.
  intros Hzipf Hmax Hfp Hfo Hag Hout Hout' word.
  destruct (solve_loaded _ _ _ _ _ _ _ _ _ _ _ _ _ Hout) as [words Hwords].
  rewrite (solve_words _ _ _ _ _ _ _ _ _ _ _ _ _ _ _ Hout Hwords).
  rewrite (solve_words _ _ _ _ _ _ _ _ _ _ _ _ _ _ _ Hout' Hwords).
  rewrite !is_valid_word_true.
  intros (Hin & (Hlen & Hcenter & Hsub & Hpl & Hob) & Hcap & Hfreq).
  split; [done |]. split; [by auto 10 |]. split.
  { destruct Hmax as [-> | ->]; [done | exact Hcap]. }
  destruct Hzipf as [-> | ->]; [done |].
  destruct min_zipf, zf; try done.
  destruct Hfreq as (? & H8 & H9). auto.
Qed.

Lemma solve_filters_only_remove_demo :
  let strict := demo_run (Some demo_zipf) (Some 3.6%float) true in
  let lax := solve_spellingbee demo_fs (Some demo_zipf) demo_letters "N"
               "wordlist.txt" 4 7 None None true false false in
  (returned strict = inr (results_of strict) /\ returned lax = inr (results_of lax))
  /\ forall word,
       In word (map WordResult.word (results_of strict)) ->
       In word (map WordResult.word (results_of lax)).
Proof.
  cbn zeta.
  assert (Hstrict : returned (demo_run (Some demo_zipf) (Some 3.6%float) true)
            = inr (results_of (demo_run (Some demo_zipf) (Some 3.6%float) true)))
    by (vm_compute; reflexivity).
  assert (Hlax : returned (solve_spellingbee demo_fs (Some demo_zipf) demo_letters "N"
                             "wordlist.txt" 4 7 None None true false false)
            = inr (results_of (solve_spellingbee demo_fs (Some demo_zipf) demo_letters
                                 "N" "wordlist.txt" 4 7 None None true false false)))
    by (vm_compute; reflexivity).
  split; [split; [exact Hstrict | exact Hlax] |].
  refine (solve_filters_only_remove demo_fs (Some demo_zipf) demo_letters "N"
            "wordlist.txt" 4 7 (Some 3.6%float) (Some 10) true true true
            None None true false false _ _ _ _ _ _ _ Hstrict Hlax);
    first [by left | done].
Defined.

(** ** The order of the word list *)

Lemma loop_perm zf (letters_set : gset string) center min_len bonus
    min_zipf max_len fp fo ag words1 words2 :
  words1 ≡ₚ words2 ->
  (loop zf letters_set center min_len bonus min_zipf max_len fp fo ag words1).1
    ≡ₚ (loop zf letters_set center min_len bonus min_zipf max_len fp fo ag words2).1
  /\ (loop zf letters_set center min_len bonus min_zipf max_len fp fo ag words1).2
       ≡ₚ (loop zf letters_set center min_len bonus min_zipf max_len fp fo ag words2).2.
Proof.
  induction 1 as [| w l1 l2 _ [IH1 IH2] | w v l | l1 l2 l3 _ [IH1 IH2] _ [IH3 IH4]].
  - done.
  - rewrite !loop_cons. cbn [fst snd]. by rewrite IH1, IH2.
  - rewrite !loop_cons. cbn [fst snd]. rewrite !app_assoc.
    split; f_equiv; apply Permutation_app_comm.
  - split; etrans; done.
Qed.

(** Two lists without an element greater than a later one, made of the
    same elements, are the same list when mutual "not greater" means
    equal. *)
Lemma StronglySorted_unique {A} (R : A -> A -> Prop) (l1 l2 : list A) :
  StronglySorted R l1 -> StronglySorted R l2 -> l1 ≡ₚ l2 ->
  (forall a b, In a l1 -> In b l1 -> R a b -> R b a -> a = b) ->
  l1 = l2.
Proof.
  intros Hs1. revert l2.
  induction Hs1 as [| a l1 Hs1 IH Ha]; intros l2 Hs2 Hperm Hanti.
  { by apply Permutation_nil_l in Hperm. }
  destruct Hs2 as [| b l2 Hs2 Hb].
  { by apply Permutation_nil_r in Hperm. }
  rewrite Forall_forall in Ha, Hb.
  assert (Hab : a = b).
  { assert (Hina : a ∈ b :: l2) by (rewrite <- Hperm; left).
    assert (Hinb : b ∈ a :: l1) by (rewrite Hperm; left).
    apply elem_of_cons in Hina as [-> | Hina]; [done |].
    apply elem_of_cons in Hinb as [-> | Hinb]; [done |].
    apply Hanti; [by left | right; by apply list_elem_of_In | by apply Ha | by apply Hb]. }
  subst b. f_equal. apply IH; [done | by apply Permutation_cons_inv in Hperm |].
  intros x y Hx Hy. apply Hanti; by right.
Qed.

Lemma kept_same_word zf (letters_set : gset string) center min_len bonus
    min_zipf max_len fp fo ag words a b :
  In a (loop zf letters_set center min_len bonus min_zipf max_len fp fo ag words).2 ->
  In b (loop zf letters_set center min_len bonus min_zipf max_len fp fo ag words).2 ->
  WordResult.word a = WordResult.word b -> a = b.
Proof.
  intros (wa & _ & Ha)%loop_kept (wb & _ & Hb)%loop_kept.
  apply loop_body_kept in Ha as (_ & _ & za & -> & Hza).
  apply loop_body_kept in Hb as (_ & _ & zb & -> & Hzb).
  destruct (make_result_fields letters_set bonus wa za) as [-> _].
  destruct (make_result_fields letters_set bonus wb zb) as [-> _].
  intros ->. f_equal.
  destruct min_zipf, zf; try congruence.
  destruct Hza as [-> _], Hzb as [-> _]. done.
Qed.

(** The list returned does not depend on the order of the lines of the
    word list; the words looked up are the same up to their order. *)
Theorem solve_word_order_irrelevant open_lines1 path1 lines1 open_lines2 path2 lines2
    zf letters center min_len bonus min_zipf max_len fp fo ag :
  open_lines1 path1 = Some lines1 ->
  open_lines2 path2 = Some lines2 ->
  lines1 ≡ₚ lines2 ->
  returned (solve_spellingbee open_lines1 zf letters center path1
              min_len bonus min_zipf max_len fp fo ag)
  = returned (solve_spellingbee open_lines2 zf letters center path2
                min_len bonus min_zipf max_len fp fo ag)
  /\ lookups (solve_spellingbee open_lines1 zf letters center path1
                min_len bonus min_zipf max_len fp fo ag)
     ≡ₚ lookups (solve_spellingbee open_lines2 zf letters center path2
                   min_len bonus min_zipf max_len fp fo ag).
Proof.
  intros Hopen1 Hopen2 Hperm. rewrite !solve_spellingbee_eq.
  repeat case_decide; try done.
  unfold _load_words. rewrite Hopen1, Hopen2. cbn [returned lookups].
  assert (Hwords : filter (fun w => _WORD_RE_match w = true)
                     ((fun line => Py.lower (Py.strip line)) <$> lines1)
                   ≡ₚ filter (fun w => _WORD_RE_match w = true)
                        ((fun line => Py.lower (Py.strip line)) <$> lines2))
    by by rewrite Hperm.
  destruct (loop_perm zf (letter_set letters) (Py.lower center) min_len bonus
              min_zipf max_len fp fo ag _ _ Hwords) as [Hlooked Hkept].
  split; [| exact Hlooked]. f_equal.
  apply (StronglySorted_unique (fun a b => result_lt b a = false)).
  - apply sorted_StronglySorted; [apply result_lt_asym | apply result_ge_trans].
  - apply sorted_StronglySorted; [apply result_lt_asym | apply result_ge_trans].
  - by rewrite !sorted_perm.
  - intros a b Ha%sorted_In Hb%sorted_In Hab Hba.
    apply (kept_same_word _ _ _ _ _ _ _ _ _ _ _ _ _ Ha Hb).
    apply result_lt_false in Hab, Hba.
    destruct Hab as [? | [? Hab]], Hba as [? | [? Hba]]; try lia.
    by apply String.leb_antisym.
Qed.

Lemma solve_word_order_irrelevant_demo :
  let fs2 := fun _ : string => Some (rev demo_lines) in
  (demo_fs "wordlist.txt"%string = Some demo_lines
   /\ fs2 "reversed.txt"%string = Some (rev demo_lines)
   /\ demo_lines ≡ₚ rev demo_lines)
  /\ returned (demo_run (Some demo_zipf) (Some 3.6%float) true)
     = returned (solve_spellingbee fs2 (Some demo_zipf) demo_letters "N"
                   "reversed.txt" 4 7 (Some 3.6%float) (Some 10) true true true).
Proof.
  cbn zeta.
  assert (Hperm : demo_lines ≡ₚ rev demo_lines) by apply Permutation_rev.
  split; [split; [reflexivity | split; [reflexivity | exact Hperm]] |].
  exact (proj1 (solve_word_order_irrelevant demo_fs "wordlist.txt" demo_lines
                  (fun _ => Some (rev demo_lines)) "reversed.txt" (rev demo_lines)
                  (Some demo_zipf) demo_letters "N" 4 7 (Some 3.6%float) (Some 10)
                  true true true eq_refl eq_refl Hperm)).
Defined.

(** ** Counters *)

Section CounterFacts.
Context {A : Type} `{EqDecision A}.

Lemma tally_bump (k : A) (c : list (A * nat)) (k' : A) :
  tally (Builtin.bump k c) k' = ((if decide (k' = k) then 1 else 0) + tally c k')%nat.
Proof.
  induction c as [|[k0 n] c IH]; simpl.
  - repeat case_decide; lia.
  - destruct (decide (k = k0)) as [-> |]; simpl; [| rewrite IH];
      repeat case_decide; subst; try done; lia.
Qed.

Lemma bump_keys (k : A) (c : list (A * nat)) :
  map fst (Builtin.bump k c) = map fst c \/
  (~ In k (map fst c) /\ map fst (Builtin.bump k c) = map fst c ++ [k]).
Proof.
  induction c as [|[k0 n] c IH]; simpl; [right; split; [tauto | done] |].
  destruct (decide (k = k0)) as [-> | Hne]; simpl; [by left |].
  destruct IH as [-> | [Hnot ->]]; [by left | right].
  split; [| done]. intros [? | ?]; [congruence | done].
Qed.

Lemma bump_NoDup (k : A) (c : list (A * nat)) : NoDup (map fst c) -> NoDup (map fst (Builtin.bump k c)).
Proof.
  intros Hnd. destruct (bump_keys k c) as [-> | [Hnot ->]]; [done |].
  apply NoDup_app. split; [done |]. split; [| apply NoDup_singleton].
  intros x Hx ->%list_elem_of_singleton. by apply Hnot, list_elem_of_In.
Qed.

Lemma bump_positive (k : A) (c : list (A * nat)) :
  Forall (fun item => (0 < item.2)%nat) c ->
  Forall (fun item => (0 < item.2)%nat) (Builtin.bump k c).
Proof.
  induction 1 as [|[k0 n] c Hn Hc IH]; simpl.
  - repeat constructor.
  - case_decide; constructor; simpl in *; try done; lia.
Qed.

Lemma bump_total (k : A) (c : list (A * nat)) : count_total (Builtin.bump k c) = S (count_total c).
Proof.
  unfold count_total. induction c as [|[k0 n] c IH]; simpl; [done |].
  case_decide; simpl; [done |]. rewrite IH. lia.
Qed.

Lemma tally_In (c : list (A * nat)) (k : A) (n : nat) :
  NoDup (map fst c) -> In (k, n) c -> tally c k = n.
Proof.
  induction c as [|[k0 n0] c IH]; simpl; [done |].
  intros [Hnot Hnd]%NoDup_cons [[= -> ->] | Hin].
  - case_decide; [| done].
    assert (tally c k = 0%nat) as ->; [| lia].
    clear -Hnot. induction c as [|[k1 n1] c IH]; simpl; [done |].
    case_decide as Hk; [subst; destruct Hnot; by left |].
    apply IH. intros ?. apply Hnot. by right.
  - case_decide as Hk; [| by apply IH].
    subst. destruct Hnot. apply list_elem_of_In, in_map_iff. by exists (k0, n).
Qed.

Lemma Counter_invariant (xs : list A) (c : list (A * nat)) :
  NoDup (map fst c) -> Forall (fun item => (0 < item.2)%nat) c ->
  let c' := fold_left (fun c k => Builtin.bump k c) xs c in
  NoDup (map fst c')
  /\ Forall (fun item => (0 < item.2)%nat) c'
  /\ count_total c' = (length xs + count_total c)%nat
  /\ forall k, tally c' k = (count_occ (decide_rel (=)) xs k + tally c k)%nat.
Proof.
  revert c. induction xs as [|x xs IH]; intros c Hnd Hpos; cbn zeta.
  - simpl. done.
  - cbn [fold_left].
    destruct (IH (Builtin.bump x c) (bump_NoDup _ _ Hnd) (bump_positive _ _ Hpos))
      as (Hnd' & Hpos' & Htot & Htally).
    split; [done |]. split; [done |]. split.
    + rewrite Htot, bump_total. simpl. lia.
    + intros k. rewrite Htally, tally_bump. simpl.
      destruct (decide_rel eq x k), (decide (k = x)); subst; try done; lia.
Qed.

(** A counter lists each key once, with the number of times the key
    occurs in what was counted, and its counts add up to the length. *)
Lemma Counter_counts (xs : list A) :
  NoDup (map fst (Builtin.Counter xs))
  /\ count_total (Builtin.Counter xs) = length xs
  /\ forall k n, In (k, n) (Builtin.Counter xs) ->
       n = count_occ (decide_rel (=)) xs k /\ (0 < n)%nat.
Proof.
  destruct (Counter_invariant xs [] (NoDup_nil_2) (Forall_nil_2 _))
    as (Hnd & Hpos & Htot & Htally).
  cbn zeta in *. fold (Builtin.Counter xs) in *.
  split; [done |]. split; [by rewrite Htot; unfold count_total; simpl; lia |].
  intros k n Hin. split.
  - rewrite <- (tally_In _ _ _ Hnd Hin), Htally. simpl. lia.
  - rewrite Forall_forall in Hpos. by apply (Hpos (k, n)), list_elem_of_In.
Qed.

End CounterFacts.

Lemma StronglySorted_take_sorted {A} (R : A -> A -> Prop) n l :
  StronglySorted R l -> StronglySorted R (take n l).
Proof.
  intros Hs. revert n. induction Hs as [|x l Hs IH Hx]; intros [|n]; simpl;
    try constructor; [apply IH |].
  rewrite Forall_forall in *. intros y Hy. apply Hx.
  by apply (subseteq_take n l).
Qed.

Lemma StronglySorted_impl_sorted {A} (R R' : A -> A -> Prop) l :
  (forall a b, R a b -> R' a b) -> StronglySorted R l -> StronglySorted R' l.
Proof.
  intros Himpl. induction 1 as [|x l Hs IH Hx]; constructor; [done |].
  eapply Forall_impl; [exact Hx | auto].
Qed.

(** ** The hints *)

Lemma count_total_perm {A} (c1 c2 : list (A * nat)) :
  c1 ≡ₚ c2 -> count_total c1 = count_total c2.
Proof.
  unfold count_total.
  induction 1 as [| x l1 l2 _ IH | x y l | l1 l2 l3 _ IH1 _ IH2]; simpl; lia.
Qed.

Lemma first_letters_None results :
  first_letters results = None <->
  exists r, In r results /\ WordResult.word r = EmptyString.
Proof.
  induction results as [|r results IH]; simpl.
  - split; [done | by intros (? & [] & _)].
  - destruct (WordResult.word r) as [|c w] eqn:Hw; simpl.
    + split; [eauto | done].
    + assert (Hmap : option_map (cons (Builtin.upper (Py.char_str c)))
                       (first_letters results) = None
                     <-> first_letters results = None)
        by (destruct (first_letters results); done).
      rewrite Hmap, IH. split.
      * intros (r' & Hin & Hr'). eauto.
      * intros (r' & [<- | Hin] & Hr'); [congruence | eauto].
Qed.

Lemma first_letters_count results firsts k :
  first_letters results = Some firsts ->
  count_occ (decide_rel (=)) firsts k
  = length (List.filter (starts_with_letter k) results).
Proof.
  revert firsts. induction results as [|r results IH]; intros firsts Hf.
  - injection Hf as <-. done.
  - cbn [first_letters] in Hf. cbn [List.filter]. unfold starts_with_letter at 1.
    destruct (Builtin.first (WordResult.word r)) as [c |]; [| done].
    destruct (first_letters results) as [firsts' |]; [| done].
    injection Hf as <-. cbn [count_occ]. rewrite (IH firsts' eq_refl).
    destruct (String.eqb_spec (Builtin.upper c) k);
      destruct (decide_rel eq (Builtin.upper c) k); done.
Qed.

Lemma starts_count results s :
  count_occ (decide_rel (=))
    (map (fun r => Builtin.upper (Builtin.str_take 2 (WordResult.word r))) results) s
  = length (List.filter (starts_with_pair s) results).
Proof.
  induction results as [|r results IH]; [done |].
  cbn [map count_occ List.filter]. unfold starts_with_pair at 1. rewrite IH.
  destruct (String.eqb_spec
              (Builtin.upper (Builtin.str_take 2 (WordResult.word r))) s);
    destruct (decide_rel eq
                (Builtin.upper (Builtin.str_take 2 (WordResult.word r))) s); done.
Qed.

(** [print_hints] stops on the index error exactly when some result has
    an empty word, and it has then printed nothing. *)
Theorem print_hints_index_error results :
  (index_error (print_hints results) = true <->
     exists r, In r results /\ WordResult.word r = EmptyString)
  /\ (index_error (print_hints results) = true -> lines (print_hints results) = []).
Proof.
  rewrite <- first_letters_None. unfold print_hints.
  destruct (first_letters results); simpl; split; done.
Qed.

(** What the hints say, when they are printed: the counts by first
    letter add up to the number of results, and each letter listed has
    the number of words that start with it; at most ten two-letter starts
    are listed, the most frequent first, each with the number of words
    that start with it. *)
Theorem print_hints_counts results :
  index_error (print_hints results) = false ->
  exists counts starts,
    lines (print_hints results)
    = [HintsHeading; ByFirstLetter counts; StartsHeading]
      ++ map (fun item => Start item.1 item.2) starts ++ [Blank]
    /\ count_total counts = length results
    /\ (forall k n, In (k, n) counts ->
          n = length (List.filter (starts_with_letter k) results) /\ (0 < n)%nat)
    /\ (length starts <= 10)%nat
    /\ StronglySorted (fun a b => (b.2 <= a.2)%nat) starts
    /\ (forall s n, In (s, n) starts ->
          n = length (List.filter (starts_with_pair s) results) /\ (0 < n)%nat).
Proof.
  unfold print_hints.
  destruct (first_letters results) as [firsts |] eqn:Hfirsts; [| done].
  intros _. cbn [lines]. eexists _, _. split; [reflexivity |].
  destruct (Counter_counts firsts) as (_ & Htotal & Hcount).
  destruct (Counter_counts
              (map (fun r => Builtin.upper (Builtin.str_take 2 (WordResult.word r)))
                   results)) as (_ & _ & Hstarts).
  split.
  { rewrite (count_total_perm _ _ (sorted_perm _ _)), Htotal.
    clear -Hfirsts. revert firsts Hfirsts.
    induction results as [|r results IH]; intros firsts; simpl; [by intros [= <-] |].
    destruct (Builtin.first (WordResult.word r)); [| done].
    destruct (first_letters results) as [firsts' |]; [| done].
    simpl. intros [= <-]. simpl. by rewrite (IH firsts' eq_refl). }
  split.
  { intros k n Hin%sorted_In. apply Hcount in Hin as [-> Hpos].
    by rewrite <- (first_letters_count _ _ _ Hfirsts). }
  split.
  { unfold Builtin.most_common. rewrite length_take. lia. }
  split.
  { unfold Builtin.most_common.
    apply (StronglySorted_take_sorted _ 10).
    eapply StronglySorted_impl_sorted;
      [| apply (sorted_StronglySorted (fun a b : string * nat => (b.2 <? a.2)%nat))].
    - intros a b Hab. apply Nat.ltb_ge in Hab. exact Hab.
    - intros a b Hab. apply Nat.ltb_lt in Hab. apply Nat.ltb_ge. lia.
    - intros a b c Hab Hbc. apply Nat.ltb_ge in Hab, Hbc. apply Nat.ltb_ge. lia. }
  intros s n Hin. unfold Builtin.most_common in Hin.
  apply list_elem_of_In, (subseteq_take 10), list_elem_of_In, sorted_In, Hstarts
    in Hin as [-> Hpos].
  by rewrite <- starts_count.
Qed.

(** ** The report *)

Lemma filter_none {A} (p : A -> bool) l :
  Forall (fun x => p x = false) l -> List.filter p l = [].
Proof. induction 1 as [|x l Hx _ IH]; simpl; [done | by rewrite Hx]. Qed.

Lemma filter_map_all {A B} (p : B -> bool) (f : A -> B) l :
  (forall x, p (f x) = true) -> List.filter p (map f l) = map f l.
Proof. intros Hp. induction l as [|x l IH]; simpl; [done | by rewrite Hp, IH]. Qed.

Lemma hint_lines results : Forall (fun l => is_hint_line l = true) (lines (print_hints results)).
Proof.
  unfold print_hints. destruct (first_letters results); cbn [lines]; [| constructor].
  repeat (apply Forall_cons; split; [done |]).
  apply Forall_app. split; [| by repeat constructor].
  apply Forall_forall. intros row Hrow. apply list_elem_of_In, in_map_iff in Hrow as (item & <- & _). done.
Qed.

Lemma hint_lines_of show_hints results :
  Forall (fun l => is_hint_line l = true)
         (lines (if show_hints : bool then print_hints results
                 else {| lines := []; index_error := false |})).
Proof. destruct show_hints; [apply hint_lines | constructor]. Qed.

Lemma summary_lines_summary fsum results :
  Forall (fun l => is_summary_line l = true) (summary_lines fsum results).
Proof.
  unfold summary_lines. repeat (apply Forall_cons; split; [done |]).
  apply Forall_app. split; [| by repeat constructor].
  destruct results as [|r0 ?]; [constructor |].
  destruct (PrimFloat.ltb _ _); by repeat constructor.
Qed.

Lemma pangram_lines_pangram results :
  Forall (fun l => is_pangram_line l = true) (pangram_lines results).
Proof.
  unfold pangram_lines. destruct (List.filter _ results) as [|p ps]; [constructor |].
  apply Forall_cons. split; [done |].
  apply Forall_app. split; [| by repeat constructor].
  apply Forall_forall. intros row Hrow. apply list_elem_of_In, in_map_iff in Hrow as (item & <- & _). done.
Qed.

Lemma Forall_line_impl (p q : line -> bool) ls :
  (forall l, p l = true -> q l = false) ->
  Forall (fun l => p l = true) ls -> Forall (fun l => q l = false) ls.
Proof. intros Hpq Hall. eapply Forall_impl; [exact Hall | exact Hpq]. Qed.

Lemma slice_to_length {A} (n : Z) (l : list A) :
  Z.of_nat (length (Builtin.slice_to n l))
  = if 0 <=? n then Z.min n (Z.of_nat (length l))
    else Z.max 0 (Z.of_nat (length l) + n).
Proof.
  unfold Builtin.slice_to. destruct (Z.leb_spec 0 n); rewrite length_take; lia.
Qed.

Lemma print_results_lines fsum results n show_hints :
  index_error (print_results fsum results n show_hints) = false ->
  lines (print_results fsum results n show_hints)
  = summary_lines fsum results
    ++ lines (if show_hints then print_hints results
              else {| lines := []; index_error := false |})
    ++ top_lines results n ++ pangram_lines results.
Proof.
  unfold print_results. cbn zeta.
  destruct (index_error (if show_hints then print_hints results
                         else {| lines := []; index_error := false |}));
    cbn [index_error lines]; [discriminate | reflexivity].
Qed.

(** The heading of the top words announces [min(show_top_n, len(results))];
    as many rows follow exactly when [show_top_n] is not negative.  A
    negative [show_top_n] leaves out that many words from the end. *)
Theorem print_results_top_rows fsum results n show_hints :
  let out := print_results fsum results n show_hints in
  index_error out = false ->
  In (TopHeading (Z.min n (Z.of_nat (length results)))) (lines out)
  /\ (forall m, In (TopHeading m) (lines out) -> m = Z.min n (Z.of_nat (length results)))
  /\ Z.of_nat (length (List.filter is_word_row (lines out)))
     = (if 0 <=? n then Z.min n (Z.of_nat (length results))
        else Z.max 0 (Z.of_nat (length results) + n))
  /\ (Z.of_nat (length (List.filter is_word_row (lines out)))
      = Z.min n (Z.of_nat (length results)) <-> 0 <= n).
Proof.
  cbn zeta. intros Hok. rewrite (print_results_lines _ _ _ _ Hok).
  pose proof (summary_lines_summary fsum results) as Hsum.
  pose proof (hint_lines_of show_hints results) as Hhint.
  pose proof (pangram_lines_pangram results) as Hpan.
  assert (Hrows : Z.of_nat (length (List.filter is_word_row
            (summary_lines fsum results
             ++ lines (if show_hints then print_hints results
                       else {| lines := []; index_error := false |})
             ++ top_lines results n ++ pangram_lines results)))
          = if 0 <=? n then Z.min n (Z.of_nat (length results))
            else Z.max 0 (Z.of_nat (length results) + n)).
  { rewrite !List.filter_app.
    rewrite (filter_none is_word_row (summary_lines fsum results))
      by (eapply Forall_line_impl; [| exact Hsum]; by intros []).
    rewrite (filter_none is_word_row (lines _))
      by (eapply Forall_line_impl; [| exact Hhint]; by intros []).
    rewrite (filter_none is_word_row (pangram_lines results))
      by (eapply Forall_line_impl; [| exact Hpan]; by intros []).
    unfold top_lines. cbn [List.filter is_word_row].
    rewrite List.filter_app, filter_map_all by done.
    cbn [List.filter is_word_row app]. rewrite !app_nil_r, length_map.
    apply slice_to_length. }
  split.
  { rewrite !in_app_iff. right; right; left. by left. }
  split.
  { intros m. rewrite !in_app_iff. intros [Hin | [Hin | [Hin | Hin]]].
    - rewrite Forall_forall in Hsum. by apply list_elem_of_In, Hsum in Hin.
    - rewrite Forall_forall in Hhint. by apply list_elem_of_In, Hhint in Hin.
    - unfold top_lines in Hin. destruct Hin as [[= <-] | Hin]; [done |].
      apply in_app_iff in Hin as [(r & Hr & _)%in_map_iff | [Hin | []]]; done.
    - rewrite Forall_forall in Hpan. by apply list_elem_of_In, Hpan in Hin. }
  split; [exact Hrows |].
  rewrite Hrows. destruct (Z.leb_spec 0 n); lia.
Qed.

Lemma print_results_top_rows_demo :
  let results := results_of (demo_run None None false) in
  let out := print_results (fun _ => 0%float) results 3 true in
  index_error out = false
  /\ Z.of_nat (length (List.filter is_word_row (lines out))) = 3.
Proof.
  cbn zeta.
  assert (Hok : index_error (print_results (fun _ => 0%float)
                   (results_of (demo_run None None false)) 3 true) = false)
    by (vm_compute; reflexivity).
  split; [exact Hok |].
  destruct (print_results_top_rows (fun _ => 0%float)
              (results_of (demo_run None None false)) 3 true Hok)
    as (_ & _ & Hrows & _).
  rewrite Hrows. vm_compute. reflexivity.
Defined.

Lemma is_pangram_count results :
  (0 < length (List.filter WordResult.is_pangram results))%nat <->
  List.filter WordResult.is_pangram results <> [].
Proof. destruct (List.filter _ results); simpl; split; (done || lia). Qed.

(** The summary agrees with what follows it: the counts by length add up
    to the words found, the block of the pangrams has as many rows as the
    summary counts pangrams, and it is printed exactly when that count is
    not zero. *)
Theorem print_results_summary fsum results n show_hints :
  let out := print_results fsum results n show_hints in
  index_error out = false ->
  exists by_len pangrams,
    In (WordsFound (length results)) (lines out)
    /\ In (ByLength by_len) (lines out)
    /\ In (Pangrams pangrams) (lines out)
    /\ count_total by_len = length results
    /\ (pangrams <= length results)%nat
    /\ length (List.filter is_pangram_row (lines out)) = pangrams
    /\ (In PangramsHeading (lines out) <-> (0 < pangrams)%nat).
Proof.
  cbn zeta. intros Hok. rewrite (print_results_lines _ _ _ _ Hok).
  pose proof (summary_lines_summary fsum results) as Hsum.
  pose proof (hint_lines_of show_hints results) as Hhint.
  exists (Py.sorted Builtin.int_item_lt
            (Builtin.Counter (map WordResult.length results))),
         (length (List.filter WordResult.is_pangram results)).
  split; [apply in_app_iff; left; unfold summary_lines; simpl; tauto |].
  split; [apply in_app_iff; left; unfold summary_lines; simpl; tauto |].
  split; [apply in_app_iff; left; unfold summary_lines; simpl; tauto |].
  split.
  { rewrite (count_total_perm _ _ (sorted_perm _ _)).
    destruct (Counter_counts (map WordResult.length results)) as (_ & -> & _).
    apply length_map. }
  split; [apply List.filter_length_le |].
  split.
  { rewrite !List.filter_app.
    rewrite (filter_none is_pangram_row (summary_lines fsum results))
      by (eapply Forall_line_impl; [| exact Hsum]; by intros []).
    rewrite (filter_none is_pangram_row (lines _))
      by (eapply Forall_line_impl; [| exact Hhint]; by intros []).
    rewrite (filter_none is_pangram_row (top_lines results n)).
    2: { unfold top_lines. apply Forall_cons. split; [done |].
         apply Forall_app. split; [| by repeat constructor].
         apply Forall_forall. intros row Hrow. apply list_elem_of_In, in_map_iff in Hrow as (r & <- & _). done. }
    unfold pangram_lines. cbn [app].
    destruct (List.filter WordResult.is_pangram results) as [|p ps]; [done |].
    cbn [List.filter is_pangram_row]. rewrite List.filter_app, filter_map_all by done.
    cbn [List.filter is_pangram_row]. rewrite app_nil_r. simpl. by rewrite length_map. }
  rewrite is_pangram_count, !in_app_iff. split.
  - intros [Hin | [Hin | [Hin | Hin]]].
    + rewrite Forall_forall in Hsum. by apply list_elem_of_In, Hsum in Hin.
    + rewrite Forall_forall in Hhint. by apply list_elem_of_In, Hhint in Hin.
    + unfold top_lines in Hin. destruct Hin as [? | Hin]; [done |].
      apply in_app_iff in Hin as [(r & Hr & _)%in_map_iff | [Hin | []]]; done.
    + unfold pangram_lines in Hin. by destruct (List.filter _ results).
  - intros Hne. right; right; right. unfold pangram_lines.
    destruct (List.filter _ results); [done | by left].
Qed.

Lemma print_results_summary_demo :
  let results := results_of (solve_spellingbee demo_fs None demo_letters "N"
                               "wordlist.txt" 4 7 None None false false false) in
  let out := print_results (fun _ => 0%float) results 50 false in
  index_error out = false
  /\ In (Pangrams 1) (lines out)
  /\ In PangramsHeading (lines out).
Proof.
  cbn zeta.
  assert (Hok : index_error (print_results (fun _ => 0%float)
                   (results_of (solve_spellingbee demo_fs None demo_letters "N"
                                  "wordlist.txt" 4 7 None None false false false))
                   50 false) = false)
    by (vm_compute; reflexivity).
  split; [exact Hok |].
  destruct (print_results_summary (fun _ => 0%float)
              (results_of (solve_spellingbee demo_fs None demo_letters "N"
                             "wordlist.txt" 4 7 None None false false false))
              50 false Hok)
    as (by_len & pangrams & _ & _ & Hpan & _ & _ & Hrows & Hhead).
  assert (Hone : pangrams = 1%nat) by (rewrite <- Hrows; vm_compute; reflexivity).
  subst pangrams. split; [exact Hpan |]. apply Hhead. lia.
Defined.

(** ** Printing what [solve_spellingbee] returned *)

Lemma solve_words_entries open_lines zf letters center path min_len bonus
    min_zipf max_len fp fo ag results r :
  returned (solve_spellingbee open_lines zf letters center path
              min_len bonus min_zipf max_len fp fo ag) = inr results ->
  In r results -> dictionary_entry (WordResult.word r).
Proof.
  intros Hout Hr.
  destruct (solve_loaded _ _ _ _ _ _ _ _ _ _ _ _ _ Hout) as [words Hwords].
  assert (Hin : In (WordResult.word r) (map WordResult.word results))
    by (apply in_map_iff; eauto).
  apply (solve_words _ _ _ _ _ _ _ _ _ _ _ _ _ _ _ Hout Hwords) in Hin as [Hin _].
  by apply (load_words_entries _ _ _ Hwords).
Qed.

Lemma print_results_index_error fsum results n show_hints :
  index_error (print_results fsum results n show_hints)
  = if show_hints then index_error (print_hints results) else false.
Proof.
  unfold print_results. cbn zeta. destruct show_hints; cbn [index_error].
  - by destruct (index_error (print_hints results)).
  - done.
Qed.

Lemma print_hints_entries results :
  (forall r, In r results -> dictionary_entry (WordResult.word r)) ->
  index_error (print_hints results) = false.
Proof.
  intros Hentries.
  destruct (index_error (print_hints results)) eqn:Herr; [| done].
  unfold print_hints in Herr.
  destruct (first_letters results) eqn:Hfirst; [done |].
  apply first_letters_None in Hfirst as (r & Hr & Hempty).
  by destruct (Hentries r Hr) as [Hne _].
Qed.

Lemma solve_results_printable open_lines zf letters center path min_len bonus
    min_zipf max_len fp fo ag results fsum n show_hints :
  returned (solve_spellingbee open_lines zf letters center path
              min_len bonus min_zipf max_len fp fo ag) = inr results ->
  index_error (print_results fsum results n show_hints) = false.
Proof.
  intros Hout. rewrite print_results_index_error.
  destruct show_hints; [| done]. apply print_hints_entries. intros r Hr.
  exact (solve_words_entries _ _ _ _ _ _ _ _ _ _ _ _ _ _ Hout Hr).
Qed.

(** Neither printing function stops on a list that [solve_spellingbee]
    returned: no word in it is empty. *)
Theorem print_after_solve open_lines zf letters center path min_len bonus
    min_zipf max_len fp fo ag results :
  returned (solve_spellingbee open_lines zf letters center path
              min_len bonus min_zipf max_len fp fo ag) = inr results ->
  index_error (print_hints results) = false
  /\ forall fsum n show_hints,
       index_error (print_results fsum results n show_hints) = false.
Proof.
  intros Hout.
  assert (Hhints : index_error (print_hints results) = false).
  { apply print_hints_entries. intros r Hr.
    exact (solve_words_entries _ _ _ _ _ _ _ _ _ _ _ _ _ _ Hout Hr). }
  split; [exact Hhints |].
  intros fsum n show_hints. rewrite print_results_index_error.
  by destruct show_hints.
Qed.

Lemma print_after_solve_demo :
  let out := demo_run (Some demo_zipf) (Some 3.6%float) true in
  returned out = inr (results_of out)
  /\ index_error (print_hints (results_of out)) = false
  /\ forall fsum n show_hints,
       index_error (print_results fsum (results_of out) n show_hints) = false.
Proof.
  cbn zeta.
  assert (Hout : returned (demo_run (Some demo_zipf) (Some 3.6%float) true)
            = inr (results_of (demo_run (Some demo_zipf) (Some 3.6%float) true)))
    by (vm_compute; reflexivity).
  split; [exact Hout |].
  exact (print_after_solve _ _ _ _ _ _ _ _ _ _ _ _ _ Hout).
Defined.

Lemma zipf_info_zero r : WordResult.zipf_score r = 0%float -> zipf_info r = None.
Proof. unfold zipf_info. by intros ->. Qed.

Lemma solve_zipf_zero open_lines zf letters center path min_len bonus
    min_zipf max_len fp fo ag results r :
  min_zipf = None \/ zf = None ->
  returned (solve_spellingbee open_lines zf letters center path
              min_len bonus min_zipf max_len fp fo ag) = inr results ->
  In r results -> WordResult.zipf_score r = 0%float.
Proof.
  intros Hoff Hout Hr.
  destruct (solve_result_record _ _ _ _ _ _ _ _ _ _ _ _ _ _ Hout Hr)
    as (_ & z & -> & Hz).
  destruct (make_result_fields (letter_set letters) bonus (WordResult.word r) z)
    as (_ & _ & _ & _ & ->).
  destruct Hoff as [-> | ->]; [done | by destruct min_zipf].
Qed.

(** Without a threshold or without [wordfreq], the report of a list
    that [solve_spellingbee] returned shows no frequency: no average and
    no [zipf=] on any row. *)
Theorem report_without_frequency open_lines zf letters center path min_len bonus
    min_zipf max_len fp fo ag results fsum n show_hints :
  min_zipf = None \/ zf = None ->
  returned (solve_spellingbee open_lines zf letters center path
              min_len bonus min_zipf max_len fp fo ag) = inr results ->
  Forall (fun l => shows_frequency l = false)
         (lines (print_results fsum results n show_hints)).
Proof.
  intros Hoff Hout.
  assert (Hzero : forall r, In r results -> zipf_info r = None).
  { intros r Hr. apply zipf_info_zero.
    exact (solve_zipf_zero _ _ _ _ _ _ _ _ _ _ _ _ _ _ Hoff Hout Hr). }
  rewrite (print_results_lines _ _ _ _
             (solve_results_printable _ _ _ _ _ _ _ _ _ _ _ _ _ _ _ _ Hout)).
  rewrite !Forall_app. split; [| split; [| split]].
  - unfold summary_lines. repeat (apply Forall_cons; split; [done |]).
    apply Forall_app. split; [| by repeat constructor].
    destruct results as [|r0 rest]; [constructor |].
    rewrite (solve_zipf_zero _ _ _ _ _ _ _ _ _ _ _ _ _ _ Hoff Hout (or_introl eq_refl)).
    constructor.
  - eapply Forall_line_impl; [| apply hint_lines_of]. by intros [].
  - unfold top_lines. apply Forall_cons. split; [done |].
    apply Forall_app. split; [| by repeat constructor].
    apply Forall_forall. intros row Hrow.
    apply list_elem_of_In, in_map_iff in Hrow as (r & <- & Hr).
    cbn [shows_frequency]. rewrite Hzero; [done |].
    unfold Builtin.slice_to in Hr.
    destruct (0 <=? n); by apply list_elem_of_In, subseteq_take, list_elem_of_In in Hr.
  - unfold pangram_lines.
    destruct (List.filter WordResult.is_pangram results) as [|p ps] eqn:Hpan;
      [constructor |].
    apply Forall_cons. split; [done |].
    apply Forall_app. split; [| by repeat constructor].
    apply Forall_forall. intros row Hrow.
    apply list_elem_of_In, in_map_iff in Hrow as (r & <- & Hr).
    cbn [shows_frequency]. rewrite Hzero; [done |].
    rewrite <- Hpan in Hr. by apply filter_In in Hr as [Hr _].
Qed.

Lemma report_without_frequency_demo :
  let out := demo_run None (Some 3.6%float) true in
  ((Some 3.6%float = None \/ @None (string -> string -> float) = None)
   /\ returned out = inr (results_of out))
  /\ Forall (fun l => shows_frequency l = false)
            (lines (print_results (fun _ => 0%float) (results_of out) 50 true)).
Proof.
  cbn zeta.
  assert (Hout : returned (demo_run None (Some 3.6%float) true)
            = inr (results_of (demo_run None (Some 3.6%float) true)))
    by (vm_compute; reflexivity).
  split; [split; [by right | exact Hout] |].
  exact (report_without_frequency demo_fs None demo_letters "N" "wordlist.txt" 4 7
           (Some 3.6%float) (Some 10) true true true _ (fun _ => 0%float) 50 true
           (or_intror eq_refl) Hout).
Defined.

(** ** The entry point *)

Lemma size_list_to_set_inj (g : string -> string) (l : list string) :
  (forall a b, a ∈ l -> b ∈ l -> g a = g b -> a = b) ->
  size (list_to_set (g <$> l) : gset string) = size (list_to_set l : gset string).
Proof.
  intros Hinj.
  assert (Hg : (list_to_set (g <$> l) : gset string)
               = list_to_set (g <$> remove_dups l)).
  { apply set_eq. intros x. rewrite !elem_of_list_to_set, !list_elem_of_fmap.
    by setoid_rewrite elem_of_remove_dups. }
  assert (Hl : (list_to_set l : gset string) = list_to_set (remove_dups l)).
  { apply set_eq. intros x. by rewrite !elem_of_list_to_set, elem_of_remove_dups. }
  pose proof (NoDup_remove_dups l) as Hnd.
  assert (Hnd' : NoDup (g <$> remove_dups l)).
  { apply NoDup_fmap_2_strong; [| exact Hnd].
    intros a b Ha Hb Heq.
    apply Hinj; [by apply elem_of_remove_dups | by apply elem_of_remove_dups | done]. }
  rewrite Hg, Hl, (size_list_to_set _ Hnd), (size_list_to_set _ Hnd').
  apply length_fmap.
Qed.

Lemma letter_set_chars_size LETTERS :
  (forall a b, In a (Py.chars LETTERS) -> In b (Py.chars LETTERS) ->
               Py.ascii_lower a = Py.ascii_lower b -> a = b) ->
  size (letter_set (Py.char_str <$> Py.chars LETTERS)) = size (Py.set_of_str LETTERS).
Proof.
  intros Hinj. unfold letter_set, Py.set_of_str. apply size_list_to_set_inj.
  intros a b (x & -> & Hx%list_elem_of_In)%list_elem_of_fmap
             (y & -> & Hy%list_elem_of_In)%list_elem_of_fmap Heq.
  rewrite !lower_char_str in Heq. injection Heq as Heq. by rewrite (Hinj x y).
Qed.

Lemma letter_set_chars_center LETTERS c :
  In c (Py.chars LETTERS) ->
  Py.lower (Py.char_str c) ∈ letter_set (Py.char_str <$> Py.chars LETTERS).
Proof.
  intros Hc. unfold letter_set.
  apply elem_of_list_to_set, list_elem_of_fmap. exists (Py.char_str c).
  split; [done |]. apply list_elem_of_fmap. exists c. by rewrite list_elem_of_In.
Qed.

(** When [LETTERS] has no letter in both cases, [CENTER] is one
    character, and a word list that exists can be opened, no exception
    leaves [main]: it ends after the report, exactly when [LETTERS] has 7
    distinct characters, [CENTER] is one of them and the word list
    exists, and with exit status 1 otherwise. *)
Theorem main_ends_cleanly fsum LETTERS (c : ascii) MIN_ZIPF SHOW_TOP_N SHOW_HINTS
    WORDLIST path_exists open_lines zf :
  (forall a b, In a (Py.chars LETTERS) -> In b (Py.chars LETTERS) ->
               Py.ascii_lower a = Py.ascii_lower b -> a = b) ->
  (path_exists WORDLIST = true -> open_lines WORDLIST <> None) ->
  let run := main fsum LETTERS (Py.char_str c) MIN_ZIPF SHOW_TOP_N SHOW_HINTS
                  WORDLIST path_exists open_lines zf in
  (ended run = Finished <->
     size (Py.set_of_str LETTERS) = 7%nat
     /\ In c (Py.chars LETTERS)
     /\ path_exists WORDLIST = true)
  /\ (ended run = Finished \/ ended run = SystemExit 1).
Proof.
  intros Hcase Hopen. cbn zeta. unfold main.
  destruct (Nat.eqb_spec (size (Py.set_of_str LETTERS)) 7) as [Hsize | Hsize];
    cbn [negb ended].
  2: { split; [split; [done | tauto] | by right]. }
  destruct (Py.contains (Py.char_str c) LETTERS) eqn:Hcenter; cbn [negb ended].
  2: { split; [| by right]. split; [done |].
       intros (_ & Hc%contains_char & _). congruence. }
  apply contains_char in Hcenter.
  destruct (path_exists WORDLIST) eqn:Hexists; cbn [negb ended].
  2: { split; [split; [done | by intros (_ & _ & ?)] | by right]. }
  destruct (returned _) as [e | results] eqn:Hout.
  - exfalso. revert Hout. rewrite solve_spellingbee_eq.
    rewrite (letter_set_chars_size _ Hcase), Hsize.
    rewrite decide_True by done.
    rewrite decide_True by by apply letter_set_chars_center.
    unfold _load_words. destruct (open_lines WORDLIST) eqn:Hlines; [done |].
    by destruct (Hopen eq_refl).
  - rewrite (solve_results_printable _ _ _ _ _ _ _ _ _ _ _ _ _ _ _ _ Hout).
    cbn [ended]. split; [done | by left].
Qed.

Lemma main_ends_cleanly_demo :
  let exists_demo := fun p : string => String.eqb p "wordlist.txt" in
  ((forall a b, In a (Py.chars "AELNRST") -> In b (Py.chars "AELNRST") ->
                Py.ascii_lower a = Py.ascii_lower b -> a = b)
   /\ (exists_demo "wordlist.txt"%string = true -> demo_fs "wordlist.txt" <> None))
  /\ ended (main (fun _ => 0%float) "AELNRST" "N" 3.6%float 50 false
                 "wordlist.txt" exists_demo demo_fs (Some demo_zipf)) = Finished.
Proof.
  cbn zeta.
  assert (Hcase : forall a b, In a (Py.chars "AELNRST") -> In b (Py.chars "AELNRST") ->
                              Py.ascii_lower a = Py.ascii_lower b -> a = b).
  { intros a b Ha Hb. simpl in Ha, Hb.
    repeat (destruct Ha as [<- | Ha]; [| try (exfalso; exact Ha)]);
      repeat (destruct Hb as [<- | Hb]; [| try (exfalso; exact Hb)]);
      vm_compute; congruence. }
  assert (Hopen : String.eqb "wordlist.txt" "wordlist.txt" = true ->
                  demo_fs "wordlist.txt" <> None) by (intros _; discriminate).
  split; [split; [exact Hcase | exact Hopen] |].
  apply (main_ends_cleanly (fun _ => 0%float) "AELNRST" "N" 3.6%float 50 false
           "wordlist.txt" (fun p => String.eqb p "wordlist.txt") demo_fs
           (Some demo_zipf) Hcase Hopen).
  split; [vm_compute; reflexivity |]. split; [simpl; tauto | reflexivity].
Defined.

(** [main] checks the letters as they are written and looks for [CENTER]
    as a piece of [LETTERS]; [solve_spellingbee] checks them in lower
    case, one letter at a time.  So a letter in both cases, or a [CENTER]
    of two letters, passes the first check and fails the second. *)
Example main_letter_in_both_cases :
  ended (main (fun _ => 0%float) "AaBCDEF" "B" 3.6%float 50 false "wordlist.txt"
              (fun _ => true) demo_fs None)
  = Escaped (ValueError (WrongLetterCount 6)).
Proof. vm_compute. reflexivity. Qed.

Example main_center_of_two_letters :
  ended (main (fun _ => 0%float) "AELNRST" "EL" 3.6%float 50 false "wordlist.txt"
              (fun _ => true) demo_fs None)
  = Escaped (ValueError (CenterNotAmong "el" ["a"; "e"; "l"; "n"; "r"; "s"; "t"]%string)).
Proof. vm_compute. reflexivity. Qed.

Lemma print_hints_counts_demo :
  let results := results_of (demo_run None None false) in
  index_error (print_hints results) = false
  /\ exists counts starts,
       lines (print_hints results)
       = [HintsHeading; ByFirstLetter counts; StartsHeading]
         ++ map (fun item => Start item.1 item.2) starts ++ [Blank]
       /\ count_total counts = 7%nat
       /\ (length starts <= 10)%nat.
Proof.
  cbn zeta.
  assert (Hok : index_error (print_hints (results_of (demo_run None None false))) = false)
    by (vm_compute; reflexivity).
  split; [exact Hok |].
  destruct (print_hints_counts _ Hok)
    as (counts & starts & Hlines & Htotal & _ & Hten & _).
  exists counts, starts. split; [exact Hlines |]. split; [| exact Hten].
  rewrite Htotal. vm_compute. reflexivity.
Defined.
